(** * Smart Shopping: the recommendation core

    A shallow embedding of the deterministic core of the multi-agent
    recommender:

    - [agents/product_agent.py]   the relevance scorer
      ([_filter_products_for_customer]);
    - [agents/recommendation.py]  the strategy selector, the four strategy
      engines and the feedback learner;
    - [agents/base_agent.py]      the two-tier agent memory
      ([store_memory] / [recall_memory]);
    - [agents/coordinator.py]     the feedback entry point
      ([handle_feedback]).

    Conventions of the embedding.

    - A Python float is given by a rational ([Q]) and stands for the
      IEEE 754 double nearest to it ([Py.float]).  Scores are added and
      weighted as rationals and compared up to [Qeq] ([==]); where the
      relevance scorer compares floats (the price against the product
      [avg_order_value * price_factor], a rating or a sentiment against
      its thresholds) the comparison is the one of the doubles.
    - An exception that the code does not catch ends the call without
      an answer.  The embedding describes the calls that answer; where
      a call raises (an [INSERT] that violates a foreign key, an
      unhashable strategy value, an integer beyond SQLite's 64 bits, a
      [NULL] where the scorer adds) is said at the definition.
    - A Python dict with a fixed set of keys is a record; a key read with
      [d.get(k, default)] is an [option] field when its absence matters and
      a plain field (default already applied) otherwise.
    - [self.memory] is a [gmap]; SQL tables are lists of rows in insertion
      order, and a [SELECT] returns the matching rows in that order.  The
      wall-clock [timestamp] columns are written but never read by the
      code modelled here, and are left out.
    - Mutable agent state is threaded explicitly: a stateful method
      returns its result paired with the new state. *)

From Stdlib Require Import QArith Qminmax Lqa ZArith.
From Stdlib Require SpecFloat.
From stdpp Require Import gmap strings list sorting.

(* A lemma depends on the section variables its statement names, and on
   no others. *)
#[local] Set Default Proof Using "Type".

Open Scope Q_scope.
Open Scope string_scope.

(** ** Python built-ins used by the agents *)

Module Py.

Definition Qlt_bool (x y : Q) : bool := negb (Qle_bool y x).

(** [min(a, b)]: the first argument wins a tie. *)
Definition min (a b : Q) : Q := if Qlt_bool b a then b else a.

(** [max(a, b)]: the first argument wins a tie. *)
Definition max (a b : Q) : Q := if Qlt_bool a b then b else a.

(** [sorted(l, key=key, reverse=True)].  Python's sort is stable, also
    with [reverse=True]: items with equal keys keep their input order.
    A stable sort has exactly one result, computed here by insertion:
    the head is placed in front of the first item of the sorted tail
    whose key is not larger. *)
Fixpoint insert_desc {A} (key : A -> Q) (x : A) (l : list A) : list A :=
  match l with
  | [] => [x]
  | y :: l' =>
      if Qle_bool (key y) (key x) then x :: y :: l'
      else y :: insert_desc key x l'
  end.

Definition sorted_desc {A} (key : A -> Q) (l : list A) : list A :=
  foldr (insert_desc key) [] l.

(** *** Floats

    The doubles and their operations are those of the Standard Library's
    IEEE 754 specification, at precision 53 and maximal exponent 1024
    (binary64). *)

(** The double nearest to the rational [q], ties to even: the float a
    literal or a stored number [q] is. *)
Definition float (q : Q) : SpecFloat.spec_float :=
  let denominator := SpecFloat.S754_finite false (Qden q) 0 in
  match Qnum q with
  | Z0 => SpecFloat.S754_zero false
  | Zpos n =>
      SpecFloat.SFdiv 53 1024 (SpecFloat.S754_finite false n 0) denominator
  | Zneg n =>
      SpecFloat.SFdiv 53 1024 (SpecFloat.S754_finite true n 0) denominator
  end.

(** [x * y] *)
Definition float_mul (x y : SpecFloat.spec_float) : SpecFloat.spec_float :=
  SpecFloat.SFmul 53 1024 x y.

(** [x <= y] *)
Definition float_le (x y : SpecFloat.spec_float) : bool :=
  SpecFloat.SFleb x y.

(** Values that can sit in an agent's memory: whatever was stored by
    [store_memory], or whatever [json.loads] made of a database cell. *)
#[local] Unset Elimination Schemes.
Inductive value :=
| VNone
| VBool (b : bool)
| VInt (z : Z)
| VFloat (q : Q)
| VStr (s : string)
| VList (l : list value)
| VDict (d : list (string * value)).
#[local] Set Elimination Schemes.

(** Truth value testing ([if v:], [not v], [all([...])]). *)
Definition truthy (v : value) : bool :=
  match v with
  | VNone => false
  | VBool b => b
  | VInt z => negb (z =? 0)%Z
  | VFloat q => negb (Qeq_bool q 0)
  | VStr s => negb (String.eqb s "")
  | VList l => match l with [] => false | _ => true end
  | VDict d => match d with [] => false | _ => true end
  end.

(** Whether [hash(v)] succeeds: a list and a dict are unhashable. *)
Definition hashable (v : value) : bool :=
  match v with
  | VList _ | VDict _ => false
  | _ => true
  end.

(** [v == s] for a string literal [s]: only an equal string compares
    equal. *)
Definition eq_str (v : value) (s : string) : bool :=
  match v with
  | VStr s' => String.eqb s' s
  | _ => false
  end.

End Py.

(** ** Data model *)

(** A row of the [products] table as the agents read it, plus the
    [relevance_score] key the scorer adds.  [p_recommendation_probability]
    is [None] when the key is absent (the scorer then starts at 0.5);
    [p_holiday], [p_season] and [p_geographical_location] are read with
    [product.get(k)] and compared with [==], so an absent key ([None])
    matches nothing. *)
Record Product := {
  p_product_id : string;
  p_category : string;
  p_subcategory : string;
  p_price : Q;
  p_product_rating : Q;
  p_sentiment_score : Q;
  p_holiday : option bool;
  p_season : option string;
  p_geographical_location : option string;
  p_recommendation_probability : option Q;
  p_relevance_score : option Q
}.

(** The customer analysis dict ([customer_data]). *)
Record CustomerData := {
  c_customer_id : string;
  c_customer_segment : string;
  c_browsing_history : list string;
  c_purchase_history : list string;
  c_location : string;
  c_season : string;
  c_holiday_shopping : bool;
  c_price_sensitivity : string;
  c_avg_order_value : Q
}.

(** [product_data]; the key [products] may be missing
    ([product_data.get('products', [])]). *)
Record ProductData := {
  pd_products : option (list Product)
}.

(** A recommendation dict.  Only the content-based engine writes the
    [subcategory] key. *)
Record Recommendation := {
  r_product_id : string;
  r_category : string;
  r_subcategory : option string;
  r_price : Q;
  r_score : Q;
  r_reason : string
}.

(** ** Relevance scorer ([ProductAgent._filter_products_for_customer]) *)

(** The [price_factor] table with its [.get(price_sensitivity, 1.0)]
    default. *)
Definition price_factor (price_sensitivity : string) : Q :=
  if String.eqb price_sensitivity "low" then 1.5
  else if String.eqb price_sensitivity "medium" then 1.0
  else if String.eqb price_sensitivity "high" then 0.7
  else 1.0.

(** The body of the [for product in products] loop, up to the clamp. *)
Definition relevance_score (customer_data : CustomerData) (product : Product) : Q :=
  let relevance_score := default 0.5 (p_recommendation_probability product) in
  (* 1. Location match *)
  let relevance_score :=
    if bool_decide (p_geographical_location product = Some (c_location customer_data))
    then relevance_score + 0.15 else relevance_score in
  (* 2. Season match *)
  let relevance_score :=
    if bool_decide (p_season product = Some (c_season customer_data))
    then relevance_score + 0.1 else relevance_score in
  (* 3. Holiday match *)
  let relevance_score :=
    if bool_decide (p_holiday product = Some (c_holiday_shopping customer_data))
    then relevance_score + 0.1 else relevance_score in
  (* 4. Price sensitivity adjustment *)
  let relevance_score :=
    if Py.float_le
         (Py.float (p_price product))
         (Py.float_mul
            (Py.float (c_avg_order_value customer_data))
            (Py.float (price_factor (c_price_sensitivity customer_data))))
    then relevance_score + 0.1 else relevance_score - 0.1 in
  (* 5. Rating adjustment *)
  let product_rating := Py.float (p_product_rating product) in
  let relevance_score :=
    if Py.float_le (Py.float 4.0) product_rating then relevance_score + 0.1
    else if Py.float_le product_rating (Py.float 2.0)
    then relevance_score - 0.1
    else relevance_score in
  (* 6. Sentiment score adjustment *)
  let sentiment_score := Py.float (p_sentiment_score product) in
  let relevance_score :=
    if Py.float_le (Py.float 0.7) sentiment_score then relevance_score + 0.05
    else if Py.float_le sentiment_score (Py.float 0.3)
    then relevance_score - 0.05
    else relevance_score in
  Py.max 0 (Py.min 1 relevance_score).

(** [product_copy = dict(product); product_copy['relevance_score'] = ...] *)
Definition with_relevance_score (product : Product) (s : Q) : Product :=
  {| p_product_id := p_product_id product;
     p_category := p_category product;
     p_subcategory := p_subcategory product;
     p_price := p_price product;
     p_product_rating := p_product_rating product;
     p_sentiment_score := p_sentiment_score product;
     p_holiday := p_holiday product;
     p_season := p_season product;
     p_geographical_location := p_geographical_location product;
     p_recommendation_probability := p_recommendation_probability product;
     p_relevance_score := Some s |}.

Definition _filter_products_for_customer
    (products : list Product) (customer_data : CustomerData) : list Product :=
  map (fun product =>
         with_relevance_score product (relevance_score customer_data product))
      products.

(** ** Agent memory ([BaseAgent.store_memory] / [recall_memory]) *)

(** A row of the [agent_memory] table. *)
Record MemoryRow := {
  m_agent_type : string;
  m_memory_key : string;
  m_memory_value : string
}.

(** A row of the [recommendations] table; [rr_feedback] is 0 (unset),
    1 or -1. *)
Record RecommendationRow := {
  rr_customer_id : string;
  rr_product_id : string;
  rr_score : Q;
  rr_reason : string;
  rr_feedback : Z
}.

(** The two tables of the SQLite file that the recommendation agent and
    the coordinator write; the [customers] and [products] tables of the
    same file are in [System] below. *)
Record Database := {
  agent_memory : list MemoryRow;
  recommendations : list RecommendationRow
}.

(** One agent: its in-process [self.memory] and the database behind
    [self.db]. *)
Record State := {
  memory : gmap string Py.value;
  db : Database
}.

(** [INSERT INTO agent_memory ...]: a new row each time, never an update. *)
Definition store_agent_memory
    (agent_type memory_key memory_value : string) (d : Database) : Database :=
  {| agent_memory :=
       agent_memory d ++ [ {| m_agent_type := agent_type;
                              m_memory_key := memory_key;
                              m_memory_value := memory_value |} ];
     recommendations := recommendations d |}.

(** [get_agent_memory(agent_type, memory_key)]:
    [SELECT * FROM agent_memory WHERE agent_type = ? AND memory_key = ?]
    when [memory_key] is true (non-empty), and every row of the agent
    otherwise. *)
Definition get_agent_memory
    (agent_type memory_key : string) (d : Database) : list MemoryRow :=
  if negb (String.eqb memory_key "") then
    List.filter
      (fun row => String.eqb (m_agent_type row) agent_type
                  && String.eqb (m_memory_key row) memory_key)
      (agent_memory d)
  else
    List.filter (fun row => String.eqb (m_agent_type row) agent_type)
                (agent_memory d).

(** [INSERT INTO recommendations ...]; [feedback] takes its default 0.
    Foreign keys are enforced: the insert raises [IntegrityError] when
    [customer_id] is not in the [customers] table or [product_id] not
    in the [products] table.  This is the insert that goes through. *)
Definition add_recommendation
    (customer_id product_id : string) (score : Q) (reason : string)
    (d : Database) : Database :=
  {| agent_memory := agent_memory d;
     recommendations :=
       recommendations d ++ [ {| rr_customer_id := customer_id;
                                 rr_product_id := product_id;
                                 rr_score := score;
                                 rr_reason := reason;
                                 rr_feedback := 0 |} ] |}.

(** [UPDATE recommendations SET feedback = ?
     WHERE customer_id = ? AND product_id = ?].  SQLite integers have 64
    bits: beyond them the binding raises [OverflowError] and no row
    changes.  This is the update that goes through. *)
Definition update_feedback
    (feedback : Z) (customer_id product_id : string) (d : Database) : Database :=
  {| agent_memory := agent_memory d;
     recommendations :=
       map (fun row =>
              if String.eqb (rr_customer_id row) customer_id
                 && String.eqb (rr_product_id row) product_id
              then {| rr_customer_id := rr_customer_id row;
                      rr_product_id := rr_product_id row;
                      rr_score := rr_score row;
                      rr_reason := rr_reason row;
                      rr_feedback := feedback |}
              else row)
           (recommendations d) |}.

(** [store_memory(key, value)] for a [str] value, the only kind the
    recommendation agent stores (the [json.dumps] branch is for other
    types). *)
Definition store_memory (agent_name key value : string) (st : State) : State :=
  {| memory := <[key := Py.VStr value]> (memory st);
     db := store_agent_memory agent_name key value (db st) |}.

(** The four strategy names, in the insertion order of [self.strategies]. *)
Definition strategies : list string :=
  ["collaborative_filtering"; "content_based"; "popularity_based"; "hybrid"].

(** [strategy_key = f"strategy_preference_{customer_id}"] *)
Definition strategy_key (customer_id : string) : string :=
  "strategy_preference_" ++ customer_id.

(** [strategies.index(current_strategy) if current_strategy in strategies
     else 0] *)
Fixpoint index_of (v : Py.value) (l : list string) : option nat :=
  match l with
  | [] => None
  | s :: l' => if Py.eq_str v s then Some 0%nat else S <$> index_of v l'
  end.

(** The dicts returned by the agents' entry points. *)
Inductive Response :=
| Error (msg : string)
| Recommendations (recs : list Recommendation) (strategy : Py.value)
                  (explanation : string)
| LearnedFromFeedback (previous_strategy : Py.value) (new_strategy : string)
| FeedbackRecorded (current_strategy : Py.value)
| CoordinatorFeedbackRecorded.

(** [input_data] of [RecommendationAgent.process] and [feedback_data] of
    [CoordinatorAgent.handle_feedback]; [None] is a missing key. *)
Record InputData := {
  i_action : option string;
  i_customer_data : option CustomerData;
  i_product_data : option ProductData;
  i_customer_id : option string;
  i_product_id : option string;
  i_feedback : option Z
}.

(** [all([customer_id, product_id, feedback])]: a missing key is [None],
    and the empty string and the integer 0 are false as well. *)
Definition all_present (customer_id product_id : option string)
    (feedback : option Z) : bool :=
  Py.truthy (from_option Py.VStr Py.VNone customer_id)
  && Py.truthy (from_option Py.VStr Py.VNone product_id)
  && Py.truthy (from_option Py.VInt Py.VNone feedback).

(** ** Hybrid merge table

    [all_recs] is a dict keyed by [product_id]; [list(all_recs.values())]
    lists it in insertion order, which the stable sort then sees. *)
Fixpoint dict_get (k : string) (d : list (string * Recommendation))
    : option Recommendation :=
  match d with
  | [] => None
  | (k', v) :: d' => if String.eqb k' k then Some v else dict_get k d'
  end.

(** In-place update of the entry under [k]; its position is kept. *)
Fixpoint dict_update (k : string) (f : Recommendation -> Recommendation)
    (d : list (string * Recommendation)) : list (string * Recommendation) :=
  match d with
  | [] => []
  | (k', v) :: d' =>
      if String.eqb k' k then (k', f v) :: d'
      else (k', v) :: dict_update k f d'
  end.

Definition set_score (rec : Recommendation) (score : Q) : Recommendation :=
  {| r_product_id := r_product_id rec;
     r_category := r_category rec;
     r_subcategory := r_subcategory rec;
     r_price := r_price rec;
     r_score := score;
     r_reason := r_reason rec |}.

Definition set_reason (rec : Recommendation) (reason : string) : Recommendation :=
  {| r_product_id := r_product_id rec;
     r_category := r_category rec;
     r_subcategory := r_subcategory rec;
     r_price := r_price rec;
     r_score := r_score rec;
     r_reason := reason |}.

(** The body shared by the three merge loops of [_hybrid_strategy]:
    [weight] is 0.4, 0.4, 0.2; only the content-based loop
    ([combine_reasons = true]) appends to the reason. *)
Definition add_weighted (weight : Q) (combine_reasons : bool)
    (all_recs : list (string * Recommendation)) (rec : Recommendation)
    : list (string * Recommendation) :=
  let product_id := r_product_id rec in
  let score := r_score rec * weight in
  match dict_get product_id all_recs with
  | Some _ =>
      dict_update product_id
        (fun cur =>
           let cur := set_score cur (r_score cur + score) in
           if combine_reasons
           then set_reason cur (r_reason cur ++ " and " ++ r_reason rec)
           else cur)
        all_recs
  | None => all_recs ++ [(product_id, set_score rec score)]
  end.

(** ** The agents *)

Section Agents.

(** Library behaviour the agents call into:
    - [json_loads s] is [json.loads(s)], [None] when it raises
      [JSONDecodeError];
    - [str_of_float q] is the text an f-string prints for a number;
    - [get_llm_response recs customer_data strategy] is the LLM's answer
      to the explanation prompt built from the top five recommendations,
      the customer data and the strategy name, [None] when the call
      raises. *)
Variable json_loads : string -> option Py.value.
Variable str_of_float : Q -> string.
Variable get_llm_response :
  list Recommendation -> CustomerData -> Py.value -> option string.

(** [BaseAgent.recall_memory]: the in-process dict first, then the first
    matching database row, which is cached on the way out. *)
Definition recall_memory (agent_name key : string) (st : State)
    : Py.value * State :=
  match memory st !! key with
  | Some v => (v, st)
  | None =>
      match get_agent_memory agent_name key (db st) with
      | row :: _ =>
          let value := m_memory_value row in
          let value := match json_loads value with
                       | Some v => v
                       | None => Py.VStr value
                       end in
          (value, {| memory := <[key := value]> (memory st); db := db st |})
      | [] => (Py.VNone, st)
      end
  end.

(** *** Strategy engines *)

Definition available_products (product_data : ProductData) : list Product :=
  default [] (pd_products product_data).

(** [product.get('relevance_score', 0)] *)
Definition get_relevance_score (product : Product) : Q :=
  default 0 (p_relevance_score product).

(** The body of the loop over [sorted_products[:10]] in
    [_collaborative_filtering_strategy]. *)
Definition collaborative_rec (customer_segment : string) (product : Product)
    : Recommendation :=
  {| r_product_id := p_product_id product;
     r_category := p_category product;
     r_subcategory := None;
     r_price := p_price product;
     r_score := get_relevance_score product;
     r_reason := "Recommended based on preferences of similar "
                 ++ customer_segment ++ " customers" |}.

Definition _collaborative_filtering_strategy
    (customer_data : CustomerData) (product_data : ProductData)
    : list Recommendation :=
  let customer_segment := c_customer_segment customer_data in
  match available_products product_data with
  | [] => []
  | available_products =>
      let sorted_products :=
        Py.sorted_desc get_relevance_score available_products in
      map (collaborative_rec customer_segment) (take 10 sorted_products)
  end.

(** The scoring loop body of [_content_based_strategy]. *)
Definition content_scored
    (browsing_history purchase_history : list string) (product : Product)
    : Recommendation :=
  let category := p_category product in
  let score := get_relevance_score product in
  let score := if bool_decide (category ∈ browsing_history)
               then score + 0.1 else score in
  let score := if bool_decide (category ∈ purchase_history)
               then score + 0.15 else score in
  {| r_product_id := p_product_id product;
     r_category := category;
     r_subcategory := Some (p_subcategory product);
     r_price := p_price product;
     r_score := score;
     r_reason := "Recommended based on your interest in "
                 ++ category ++ " products" |}.

Definition _content_based_strategy
    (customer_data : CustomerData) (product_data : ProductData)
    : list Recommendation :=
  let browsing_history := c_browsing_history customer_data in
  let purchase_history := c_purchase_history customer_data in
  match available_products product_data with
  | [] => []
  | available_products =>
      let scored_products :=
        map (content_scored browsing_history purchase_history)
            available_products in
      let sorted_products := Py.sorted_desc r_score scored_products in
      take 10 sorted_products
  end.

(** The body of the loop over [sorted_products[:10]] in
    [_popularity_based_strategy]. *)
Definition popularity_rec (product : Product) : Recommendation :=
  let category := p_category product in
  let rating := p_product_rating product in
  {| r_product_id := p_product_id product;
     r_category := category;
     r_subcategory := None;
     r_price := p_price product;
     r_score := rating / 5.0;
     r_reason := "Popular " ++ category ++ " product with a rating of "
                 ++ str_of_float rating |}.

Definition _popularity_based_strategy
    (customer_data : CustomerData) (product_data : ProductData)
    : list Recommendation :=
  match available_products product_data with
  | [] => []
  | available_products =>
      let sorted_products :=
        Py.sorted_desc p_product_rating available_products in
      map popularity_rec (take 10 sorted_products)
  end.

(** [all_recs] after the three merge loops. *)
Definition hybrid_all_recs
    (customer_data : CustomerData) (product_data : ProductData)
    : list (string * Recommendation) :=
  let collaborative_recs :=
    _collaborative_filtering_strategy customer_data product_data in
  let content_recs := _content_based_strategy customer_data product_data in
  let popularity_recs := _popularity_based_strategy customer_data product_data in
  let all_recs := foldl (add_weighted 0.4 false) [] collaborative_recs in
  let all_recs := foldl (add_weighted 0.4 true) all_recs content_recs in
  foldl (add_weighted 0.2 false) all_recs popularity_recs.

Definition _hybrid_strategy
    (customer_data : CustomerData) (product_data : ProductData)
    : list Recommendation :=
  let all_recs := hybrid_all_recs customer_data product_data in
  let combined_recs := map snd all_recs in
  let sorted_recs := Py.sorted_desc r_score combined_recs in
  take 10 sorted_recs.

(** *** Strategy selector *)

Definition agent_name : string := "recommendation".

Definition _select_recommendation_strategy
    (customer_data : CustomerData) (st : State) : Py.value * State :=
  let customer_id := c_customer_id customer_data in
  let segment := c_customer_segment customer_data in
  let strategy_key := strategy_key customer_id in
  let '(stored_strategy, st) := recall_memory agent_name strategy_key st in
  if Py.truthy stored_strategy then (stored_strategy, st)
  else
    let strategy :=
      if String.eqb segment "New Visitor" then "popularity_based"
      else if String.eqb segment "Frequent Buyer" then "collaborative_filtering"
      else if (length (c_purchase_history customer_data)
               <? length (c_browsing_history customer_data))%nat
           then "content_based"
      else "hybrid" in
    (Py.VStr strategy, store_memory agent_name strategy_key strategy st).

(** *** Feedback learner *)

Definition _learn_from_feedback
    (customer_id product_id : string) (feedback : Z) (st : State)
    : Response * State :=
  let strategy_key := strategy_key customer_id in
  let '(current_strategy, st) := recall_memory agent_name strategy_key st in
  if (feedback <? 0)%Z && Py.truthy current_strategy then
    let current_index := default 0%nat (index_of current_strategy strategies) in
    let next_index := ((current_index + 1) mod length strategies)%nat in
    let next_strategy := nth next_index strategies "" in
    (LearnedFromFeedback current_strategy next_strategy,
     store_memory agent_name strategy_key next_strategy st)
  else (FeedbackRecorded current_strategy, st).

(** *** Orchestration *)

(** [self.strategies.get(strategy, self._hybrid_strategy)].  The lookup
    hashes [strategy] and raises [TypeError] for a list or a dict; this
    is the lookup of a hashable value. *)
Definition strategy_fn (strategy : Py.value)
    : CustomerData -> ProductData -> list Recommendation :=
  if Py.eq_str strategy "collaborative_filtering"
  then _collaborative_filtering_strategy
  else if Py.eq_str strategy "content_based" then _content_based_strategy
  else if Py.eq_str strategy "popularity_based" then _popularity_based_strategy
  else _hybrid_strategy.

Definition _generate_recommendation_explanation
    (recs : list Recommendation) (customer_data : CustomerData)
    (strategy : Py.value) : string :=
  match get_llm_response (take 5 recs) customer_data strategy with
  | Some explanation => explanation
  | None =>
      "These products were selected based on your browsing and purchase history, as well as your preferences as a "
      ++ c_customer_segment customer_data
      ++ ". We've highlighted items that we think will be most relevant to your interests."
  end.

Definition _generate_recommendations
    (customer_data : CustomerData) (product_data : ProductData)
    (strategy : Py.value) (st : State) : Response * State :=
  let customer_id := c_customer_id customer_data in
  let recs := strategy_fn strategy customer_data product_data in
  let d :=
    foldl (fun d rec =>
             add_recommendation customer_id (r_product_id rec)
                                (r_score rec) (r_reason rec) d)
          (db st) recs in
  let explanation :=
    _generate_recommendation_explanation recs customer_data strategy in
  (Recommendations recs strategy explanation,
   {| memory := memory st; db := d |}).

(** [RecommendationAgent.process] *)
Definition process (input_data : InputData) (st : State) : Response * State :=
  let action := default "generate_recommendations" (i_action input_data) in
  if String.eqb action "generate_recommendations" then
    match i_customer_data input_data with
    | None => (Error "Customer data is required", st)
    | Some customer_data =>
        let product_data :=
          default {| pd_products := None |} (i_product_data input_data) in
        let '(strategy, st) :=
          _select_recommendation_strategy customer_data st in
        _generate_recommendations customer_data product_data strategy st
    end
  else if String.eqb action "learn_from_feedback" then
    let customer_id := i_customer_id input_data in
    let product_id := i_product_id input_data in
    let feedback := i_feedback input_data in
    if negb (all_present customer_id product_id feedback)
    then (Error "Missing required feedback data", st)
    else _learn_from_feedback (default "" customer_id) (default "" product_id)
                              (default 0%Z feedback) st
  else (Error ("Unknown action: " ++ action), st).

(** [CoordinatorAgent.handle_feedback].  The coordinator's own memory is
    not touched; [st] is the recommendation agent's state, whose database
    the coordinator shares. *)
Definition handle_feedback (feedback_data : InputData) (st : State)
    : Response * State :=
  let customer_id := i_customer_id feedback_data in
  let product_id := i_product_id feedback_data in
  let feedback := i_feedback feedback_data in
  if negb (all_present customer_id product_id feedback)
  then (Error "Missing required feedback data", st)
  else
    let st := {| memory := memory st;
                 db := update_feedback (default 0%Z feedback)
                                       (default "" customer_id)
                                       (default "" product_id) (db st) |} in
    let '(_, st) :=
      process {| i_action := Some "learn_from_feedback";
                 i_customer_data := None;
                 i_product_data := None;
                 i_customer_id := customer_id;
                 i_product_id := product_id;
                 i_feedback := feedback |} st in
    (CoordinatorFeedbackRecorded, st).

(** ** Reference definitions

    What the specification says, written independently of the code
    above, to be compared with it. *)

(** Clamping to the unit interval. *)
Definition clamp01 (x : Q) : Q := Qmax 0 (Qmin 1 x).

(** The six additive adjustments of the relevance scorer. *)
Definition location_adjustment (c : CustomerData) (p : Product) : Q :=
  if bool_decide (p_geographical_location p = Some (c_location c))
  then 0.15 else 0.

Definition season_adjustment (c : CustomerData) (p : Product) : Q :=
  if bool_decide (p_season p = Some (c_season c)) then 0.10 else 0.

Definition holiday_adjustment (c : CustomerData) (p : Product) : Q :=
  if bool_decide (p_holiday p = Some (c_holiday_shopping c)) then 0.10 else 0.

(** [x <= y * z], [x >= y] and [x <= y] on numbers, as the doubles
    compare. *)
Definition le_product (x y z : Q) : bool :=
  Py.float_le (Py.float x) (Py.float_mul (Py.float y) (Py.float z)).

Definition at_least (x y : Q) : bool := Py.float_le (Py.float y) (Py.float x).

Definition at_most (x y : Q) : bool := Py.float_le (Py.float x) (Py.float y).

Definition price_adjustment (c : CustomerData) (p : Product) : Q :=
  if le_product (p_price p) (c_avg_order_value c)
                (price_factor (c_price_sensitivity c))
  then 0.10 else - 0.10.

Definition rating_adjustment (p : Product) : Q :=
  if at_least (p_product_rating p) 4.0 then 0.10
  else if at_most (p_product_rating p) 2.0 then - 0.10 else 0.

Definition sentiment_adjustment (p : Product) : Q :=
  if at_least (p_sentiment_score p) 0.7 then 0.05
  else if at_most (p_sentiment_score p) 0.3 then - 0.05 else 0.

Definition relevance_sum (c : CustomerData) (p : Product) : Q :=
  default 0.5 (p_recommendation_probability p)
  + location_adjustment c p + season_adjustment c p + holiday_adjustment c p
  + price_adjustment c p + rating_adjustment p + sentiment_adjustment p.

(** The content-based boost of a category. *)
Definition content_boost (c : CustomerData) (category : string) : Q :=
  (if bool_decide (category ∈ c_browsing_history c) then 0.10 else 0)
  + (if bool_decide (category ∈ c_purchase_history c) then 0.15 else 0).

(** The score a sub-engine gave to [product_id], 0 when its output does
    not list the product. *)
Definition find_rec (product_id : string) (recs : list Recommendation)
    : option Recommendation :=
  List.find (fun r => String.eqb (r_product_id r) product_id) recs.

Definition score_in (recs : list Recommendation) (product_id : string) : Q :=
  from_option r_score 0 (find_rec product_id recs).

(** The fixed rotation of the feedback learner. *)
Definition next_in_cycle (strategy : string) : string :=
  if String.eqb strategy "collaborative_filtering" then "content_based"
  else if String.eqb strategy "content_based" then "popularity_based"
  else if String.eqb strategy "popularity_based" then "hybrid"
  else if String.eqb strategy "hybrid" then "collaborative_filtering"
  else strategy.

(** The selector's default policy, first match wins. *)
Definition default_policy (c : CustomerData) : string :=
  if bool_decide (c_customer_segment c = "New Visitor")
  then "popularity_based"
  else if bool_decide (c_customer_segment c = "Frequent Buyer")
  then "collaborative_filtering"
  else if bool_decide (length (c_purchase_history c)
                       < length (c_browsing_history c))%nat
  then "content_based"
  else "hybrid".

(** Descending order on a key. *)
Definition desc {A} (key : A -> Q) (a b : A) : Prop := key b <= key a.


(** What one pass of a merge loop leaves under the key of [rec], given
    the entry [cur] found there before. *)
Definition merge_entry (weight : Q) (combine_reasons : bool)
    (cur : option Recommendation) (rec : Recommendation) : Recommendation :=
  match cur with
  | Some cur =>
      let cur := set_score cur (r_score cur + r_score rec * weight) in
      if combine_reasons
      then set_reason cur (r_reason cur ++ " and " ++ r_reason rec)
      else cur
  | None => set_score rec (r_score rec * weight)
  end.

(** A well-formed merge table: keys are distinct and every entry sits
    under its own [product_id]. *)
Definition table_wf (d : list (string * Recommendation)) : Prop :=
  NoDup (map fst d) /\ forall k v, (k, v) ∈ d -> r_product_id v = k.

(** [p'] is a copy of [p] that differs at most in [relevance_score]. *)
Definition scored_copy_of (p p' : Product) : Prop :=
  p_product_id p' = p_product_id p
  /\ p_category p' = p_category p
  /\ p_subcategory p' = p_subcategory p
  /\ p_price p' = p_price p
  /\ p_product_rating p' = p_product_rating p
  /\ p_sentiment_score p' = p_sentiment_score p
  /\ p_holiday p' = p_holiday p
  /\ p_season p' = p_season p
  /\ p_geographical_location p' = p_geographical_location p
  /\ p_recommendation_probability p' = p_recommendation_probability p.

(** ** Sample data *)

Definition sample_product (product_id category : string) (rating : Q)
    (relevance : option Q) : Product :=
  {| p_product_id := product_id;
     p_category := category;
     p_subcategory := "";
     p_price := 10;
     p_product_rating := rating;
     p_sentiment_score := 0.5;
     p_holiday := Some false;
     p_season := Some "Winter";
     p_geographical_location := Some "Canada";
     p_recommendation_probability := Some 0.5;
     p_relevance_score := relevance |}.

Definition sample_customer (customer_id segment : string)
    (browsing_history purchase_history : list string) : CustomerData :=
  {| c_customer_id := customer_id;
     c_customer_segment := segment;
     c_browsing_history := browsing_history;
     c_purchase_history := purchase_history;
     c_location := "Canada";
     c_season := "Winter";
     c_holiday_shopping := false;
     c_price_sensitivity := "medium";
     c_avg_order_value := 50 |}.

(** The identifier and score of each recommendation, for comparing
    outputs up to [==] on scores. *)
Definition scores_are (recs : list Recommendation)
    (expected : list (string * Q)) : Prop :=
  Forall2 (fun r e => r_product_id r = e.1 /\ r_score r == e.2) recs expected.

Definition sample_str_of_float (q : Q) : string :=
  if Qeq_bool q 4.5 then "4.5"
  else if Qeq_bool q 3 then "3.0"
  else if Qeq_bool q 5 then "5.0"
  else "0.0".

Definition sample_json_loads (s : string) : option Py.value :=
  if String.eqb s "null" then Some Py.VNone
  else if String.eqb s "true" then Some (Py.VBool true)
  else if String.eqb s "false" then Some (Py.VBool false)
  else None.

Definition sample_get_llm_response (recs : list Recommendation)
    (c : CustomerData) (strategy : Py.value) : option string := None.

(** No agent memory and no recommendation rows yet. *)
Definition empty_database : Database :=
  {| agent_memory := []; recommendations := [] |}.

(** A fresh agent on such a database. *)
Definition fresh_state : State :=
  {| memory := ∅; db := empty_database |}.

(** A fresh agent whose database already holds a preference for "C1". *)
Definition durable_state : State :=
  {| memory := ∅;
     db := {| agent_memory :=
                [ {| m_agent_type := "recommendation";
                     m_memory_key := "strategy_preference_C1";
                     m_memory_value := "hybrid" |} ];
              recommendations := [] |} |}.

(** An agent with a preference for "C1" in its cache. *)
Definition cached_state : State :=
  {| memory := {[ "strategy_preference_C1" := Py.VStr "hybrid" ]};
     db := empty_database |}.

Definition sample_books_customer : CustomerData :=
  sample_customer "C1" "Occasional Shopper" ["Books"] ["Books"].

Definition sample_candidates : ProductData :=
  {| pd_products := Some [sample_product "P1" "Books" 5 (Some 1);
                          sample_product "P2" "Toys" 3 (Some 0.6)] |}.


(** A product that only the price adjustment can move from 0.85. *)
Definition priced_product (price : Q) : Product :=
  {| p_product_id := "P1";
     p_category := "Books";
     p_subcategory := "";
     p_price := price;
     p_product_rating := 3;
     p_sentiment_score := 0.5;
     p_holiday := None;
     p_season := None;
     p_geographical_location := None;
     p_recommendation_probability := Some 0.85;
     p_relevance_score := None |}.

(** A price-sensitive customer with the given average order value. *)
Definition price_sensitive (avg_order_value : Q) : CustomerData :=
  {| c_customer_id := "C1";
     c_customer_segment := "";
     c_browsing_history := [];
     c_purchase_history := [];
     c_location := "";
     c_season := "";
     c_holiday_shopping := false;
     c_price_sensitivity := "high";
     c_avg_order_value := avg_order_value |}.

(** The signed 64-bit integers of SQLite. *)
Definition sqlite_integer (z : Z) : Prop := (- 2 ^ 63 <= z < 2 ^ 63)%Z.

(** One candidate of relevance 1 and rating 5 in category "Books". *)
Definition top_candidate : ProductData :=
  {| pd_products := Some [sample_product "P1" "Books" 5 (Some 1)] |}.

(** [durable_state] after its preference has been recalled once. *)
Definition warmed_state : State :=
  {| memory := {[ "strategy_preference_C1" := Py.VStr "hybrid" ]};
     db := db durable_state |}.

(** ** Product agent ([ProductAgent]) *)

(** [DatabaseManager.get_products_by_category]:
    [SELECT * FROM products WHERE category = ?] over the rows of the
    [products] table. *)
Definition get_products_by_category
    (category : string) (products_table : list Product) : list Product :=
  List.filter (fun row => String.eqb (p_category row) category) products_table.

(** [get_product_explanation products customer_data] is the LLM's answer
    to the product-selection prompt built from the top five products and
    the customer data, [None] when the call raises. *)
Variable get_product_explanation : list Product -> CustomerData -> option string.

Definition _generate_product_selection_explanation
    (products : list Product) (customer_data : CustomerData) : string :=
  match get_product_explanation (take 5 products) customer_data with
  | Some explanation => explanation
  | None =>
      "Products were selected based on your browsing and purchase history, as well as seasonal relevance and product ratings."
  end.

(** [distribution[category] = distribution.get(category, 0) + 1] for
    every product; a row of the [products] table always has its
    [category] key, so the default 'Unknown' of
    [product.get('category', 'Unknown')] is never taken. *)
Definition _get_category_distribution (products : list Product)
    : gmap string nat :=
  foldl (fun distribution product =>
           let category := p_category product in
           <[category := (default 0 (distribution !! category) + 1)%nat]>
             distribution)
        ∅ products.

(** The dicts returned by the product agent; the two early returns carry
    neither [category_distribution] nor [total_count]. *)
Inductive ProductResponse :=
| ProductError (msg : string)
| ProductsFound (products : list Product) (explanation : string)
                (category_distribution : option (gmap string nat))
                (total_count : option nat).

(** A row read from the table always has its [recommendation_probability]
    key, so a [NULL] cell ([None]) reaches the scorer, whose first
    addition then raises [TypeError]. *)
Definition scorable (product : Product) : Prop :=
  p_recommendation_probability product <> None.

(** [_find_relevant_products] on a table whose rows of the requested
    categories are scorable. *)
Definition _find_relevant_products
    (products_table : list Product) (categories : list string)
    (customer_data : CustomerData) : ProductResponse :=
  match categories with
  | [] => ProductsFound [] "No categories specified" None None
  | _ =>
      let all_products :=
        flat_map (fun category =>
                    get_products_by_category category products_table)
                 categories in
      match all_products with
      | [] =>
          ProductsFound [] "No products found in specified categories"
                        None None
      | _ =>
          let filtered_products :=
            _filter_products_for_customer all_products customer_data in
          let sorted_products :=
            Py.sorted_desc get_relevance_score filtered_products in
          let explanation :=
            _generate_product_selection_explanation
              sorted_products customer_data in
          ProductsFound sorted_products explanation
            (Some (_get_category_distribution sorted_products))
            (Some (length sorted_products))
      end
  end.

(** The product agent's answer read as [product_data]; an error dict has
    no [products] key. *)
Definition response_product_data (response : ProductResponse) : ProductData :=
  match response with
  | ProductsFound products _ _ _ => {| pd_products := Some products |}
  | ProductError _ => {| pd_products := None |}
  end.

(** ** Customer agent and coordinator *)

(** A row of the [customers] table as [get_customer] returns it, the two
    histories already decoded. *)
Record CustomerRow := {
  cu_customer_id : string;
  cu_age : Z;
  cu_gender : string;
  cu_location : string;
  cu_browsing_history : list string;
  cu_purchase_history : list string;
  cu_customer_segment : string;
  cu_avg_order_value : Q;
  cu_holiday : bool;
  cu_season : string;
  cu_embedding_id : option string
}.

(** The database tables and agent state the coordinator's pipeline reads
    or writes: the [customers] and [products] tables, and the
    recommendation agent with the [agent_memory] and [recommendations]
    tables. *)
Record System := {
  sys_customers : list CustomerRow;
  sys_products : list Product;
  sys_recommendation : State
}.

(** [DatabaseManager.get_customer]: the first row with that id. *)
Definition get_customer (customer_id : string) (customers : list CustomerRow)
    : option CustomerRow :=
  List.find (fun row => String.eqb (cu_customer_id row) customer_id) customers.

(** The dicts returned by the customer agent. *)
Inductive CustomerResponse :=
| CustomerError (msg : string)
| CustomerAnalysis (analysis : CustomerData) (relevant_categories : list string)
| ProfileUpdated (customer_id : string).

(** [CustomerAgent._analyze_customer_profile] calls the embedding model
    and the LLM; it is taken as given: the analysis as the other agents
    read it, its [relevant_categories], and the system it leaves. *)
Variable _analyze_customer_profile :
  CustomerRow -> System -> (CustomerData * list string) * System.

(** [CustomerAgent.process].  [updates] is [input_data.get('updates', {})],
    which [_update_customer_profile] receives and does not read. *)
Definition customer_agent_process
    (customer_id action : option string)
    (updates : list (string * Py.value)) (sys : System)
    : CustomerResponse * System :=
  let action := default "analyze_profile" action in
  if negb (Py.truthy (from_option Py.VStr Py.VNone customer_id))
  then (CustomerError "Customer ID is required", sys)
  else
    let customer_id := default "" customer_id in
    match get_customer customer_id (sys_customers sys) with
    | None => (CustomerError ("Customer " ++ customer_id ++ " not found"), sys)
    | Some customer =>
        if String.eqb action "analyze_profile" then
          let '(analysis, relevant_categories, sys) :=
            _analyze_customer_profile customer sys in
          (CustomerAnalysis analysis relevant_categories, sys)
        else if String.eqb action "update_profile" then
          (ProfileUpdated (cu_customer_id customer), sys)
        else (CustomerError ("Unknown action: " ++ action), sys)
    end.

(** The customer agent's answer read as [customer_data] by the other
    agents.  In a dict without the analysis keys every [.get] yields its
    default; a missing [customer_id] is [None], which the recommendation
    agent only ever formats into text, where it prints as "None". *)
Definition defaults_customer_data (customer_id : string) : CustomerData :=
  {| c_customer_id := customer_id;
     c_customer_segment := "";
     c_browsing_history := [];
     c_purchase_history := [];
     c_location := "";
     c_season := "";
     c_holiday_shopping := false;
     c_price_sensitivity := "medium";
     c_avg_order_value := 0 |}.

Definition response_customer_data (response : CustomerResponse) : CustomerData :=
  match response with
  | CustomerAnalysis analysis _ => analysis
  | CustomerError _ => defaults_customer_data "None"
  | ProfileUpdated customer_id => defaults_customer_data customer_id
  end.

(** The dicts returned by [CoordinatorAgent.process];
    [customer_segment] is [None] when [customer_data] has no such key. *)
Inductive CoordinatorResponse :=
| CoordinatorError (msg : string)
| CoordinatorResult (customer_id : string) (customer_segment : option string)
                    (recs : list Recommendation) (explanation : string).

(** [CoordinatorAgent.process].  [input_data] is read for [customer_id]
    only ([request_type] is fetched and not used); the product agent is
    called with the action [find_relevant_products], which dispatches to
    [_find_relevant_products]. *)
Definition coordinator_process (customer_id : option string) (sys : System)
    : CoordinatorResponse * System :=
  if negb (Py.truthy (from_option Py.VStr Py.VNone customer_id))
  then (CoordinatorError "Customer ID is required", sys)
  else
    let customer_id := default "" customer_id in
    (* Step 1: customer profile and analysis *)
    let '(customer_response, sys) :=
      customer_agent_process (Some customer_id) (Some "analyze_profile") []
                             sys in
    let customer_data := response_customer_data customer_response in
    (* Step 2: relevant products *)
    let relevant_categories :=
      match customer_response with
      | CustomerAnalysis _ relevant_categories => relevant_categories
      | _ => []
      end in
    let product_data :=
      response_product_data
        (_find_relevant_products (sys_products sys) relevant_categories
                                 customer_data) in
    (* Step 3: recommendations *)
    let '(recommendations, st) :=
      process {| i_action := Some "generate_recommendations";
                 i_customer_data := Some customer_data;
                 i_product_data := Some product_data;
                 i_customer_id := None;
                 i_product_id := None;
                 i_feedback := None |}
              (sys_recommendation sys) in
    (* Step 4: result *)
    let customer_segment :=
      match customer_response with
      | CustomerAnalysis analysis _ => Some (c_customer_segment analysis)
      | _ => None
      end in
    (match recommendations with
     | Recommendations recs _ explanation =>
         CoordinatorResult customer_id customer_segment recs explanation
     | _ => CoordinatorResult customer_id customer_segment [] ""
     end,
     {| sys_customers := sys_customers sys;
        sys_products := sys_products sys;
        sys_recommendation := st |}).

(** ** HTTP endpoints ([api/main.py]) *)

Record RecommendationRequest := {
  rq_customer_id : string;
  rq_limit : option Z
}.

Record FeedbackRequest := {
  fq_customer_id : string;
  fq_product_id : string;
  fq_feedback : Z
}.

(** What an endpoint answers: the returned dict (status 200) or an
    [HTTPException]. *)
Inductive HttpResponse (A : Type) :=
| HttpOk (body : A)
| HttpException (status_code : nat) (detail : string).
Arguments HttpOk {A} body.
Arguments HttpException {A} status_code detail.

(** [str(e)] for [e = HTTPException(status_code, detail)]. *)
Variable str_of_http_exception : nat -> string -> string.

(** [POST /recommendations].  The [HTTPException] with status 400 is
    raised inside the [try] block, where [except Exception] catches it
    and raises the one with status 500 in its place.  [limit] is passed
    on in [input_data], which the coordinator reads for [customer_id]
    only. *)
Definition get_recommendations (request : RecommendationRequest) (sys : System)
    : HttpResponse CoordinatorResponse * System :=
  let '(result, sys) := coordinator_process (Some (rq_customer_id request)) sys in
  match result with
  | CoordinatorError error =>
      (HttpException 500 (str_of_http_exception 400 error), sys)
  | _ => (HttpOk result, sys)
  end.

(** [POST /feedback], with the same [try]/[except]. *)
Definition submit_feedback (request : FeedbackRequest) (sys : System)
    : HttpResponse Response * System :=
  let '(result, st) :=
    handle_feedback {| i_action := None;
                       i_customer_data := None;
                       i_product_data := None;
                       i_customer_id := Some (fq_customer_id request);
                       i_product_id := Some (fq_product_id request);
                       i_feedback := Some (fq_feedback request) |}
                    (sys_recommendation sys) in
  let sys := {| sys_customers := sys_customers sys;
                sys_products := sys_products sys;
                sys_recommendation := st |} in
  match result with
  | Error error => (HttpException 500 (str_of_http_exception 400 error), sys)
  | _ => (HttpOk result, sys)
  end.

(** ** Reference definitions for the further properties *)

(** [r] describes one of the candidates: same id, category and price. *)
Definition from_candidate (pd : ProductData) (r : Recommendation) : Prop :=
  exists p, p ∈ available_products pd
            /\ r_product_id r = p_product_id p
            /\ r_category r = p_category p
            /\ r_price r = p_price p.

(** The sum of the counts of a distribution. *)
Definition total_of (distribution : gmap string nat) : nat :=
  map_fold (fun _ n acc => (n + acc)%nat) 0%nat distribution.

(** All products of the requested categories, in request order. *)
Definition products_of_categories
    (products_table : list Product) (categories : list string) : list Product :=
  flat_map (fun category => get_products_by_category category products_table)
           categories.

(** The row [add_recommendation] inserts for a recommendation. *)
Definition recommendation_row (customer_id : string) (r : Recommendation)
    : RecommendationRow :=
  {| rr_customer_id := customer_id;
     rr_product_id := r_product_id r;
     rr_score := r_score r;
     rr_reason := r_reason r;
     rr_feedback := 0 |}.

(** [new] is [old] with its feedback set to [feedback] if it is a row of
    that customer and product, and [old] itself otherwise. *)
Definition feedback_applied (feedback : Z) (customer_id product_id : string)
    (old new : RecommendationRow) : Prop :=
  rr_customer_id new = rr_customer_id old
  /\ rr_product_id new = rr_product_id old
  /\ rr_score new = rr_score old
  /\ rr_reason new = rr_reason old
  /\ rr_feedback new
     = if bool_decide (rr_customer_id old = customer_id
                       /\ rr_product_id old = product_id)
       then feedback else rr_feedback old.

(** From [st] to [st'] the [recommendations] table is untouched and the
    [agent_memory] table has gained nothing, or one row that stores a
    strategy name under [key] for the recommendation agent. *)
Definition preference_write (key : string) (st st' : State) : Prop :=
  recommendations (db st') = recommendations (db st)
  /\ (agent_memory (db st') = agent_memory (db st)
      \/ exists s, s ∈ strategies
                   /\ agent_memory (db st')
                      = (agent_memory (db st)
                         ++ [ {| m_agent_type := "recommendation";
                                 m_memory_key := key;
                                 m_memory_value := s |} ])%list).

(** The [strategy] entry of a generation answer. *)
Definition response_strategy (response : Response) : option Py.value :=
  match response with
  | Recommendations _ strategy _ => Some strategy
  | _ => None
  end.

(** A generation request as the coordinator sends it. *)
Definition generation_request (c : CustomerData) (pd : option ProductData)
    : InputData :=
  {| i_action := Some "generate_recommendations";
     i_customer_data := Some c;
     i_product_data := pd;
     i_customer_id := None;
     i_product_id := None;
     i_feedback := None |}.

(** A feedback request as the API sends it. *)
Definition feedback_request (customer_id product_id : string) (feedback : Z)
    : InputData :=
  {| i_action := None;
     i_customer_data := None;
     i_product_data := None;
     i_customer_id := Some customer_id;
     i_product_id := Some product_id;
     i_feedback := Some feedback |}.

(** [r] describes a row of the table whose category was requested. *)
Definition from_catalog (table : list Product) (categories : list string)
    (r : Recommendation) : Prop :=
  exists row, row ∈ table
              /\ p_category row ∈ categories
              /\ r_product_id r = p_product_id row
              /\ r_category r = p_category row
              /\ r_price r = p_price row.

(** ** Further sample data *)

Definition sample_get_product_explanation (products : list Product)
    (c : CustomerData) : option string := None.

Definition sample_customer_row : CustomerRow :=
  {| cu_customer_id := "C1";
     cu_age := 30;
     cu_gender := "Female";
     cu_location := "Canada";
     cu_browsing_history := ["Books"; "Toys"];
     cu_purchase_history := ["Books"];
     cu_customer_segment := "Occasional Shopper";
     cu_avg_order_value := 50;
     cu_holiday := false;
     cu_season := "Winter";
     cu_embedding_id := Some "customer_C1" |}.

(** An analysis that reads the row and leaves the system alone. *)
Definition sample_analyze_customer_profile (row : CustomerRow) (sys : System)
    : (CustomerData * list string) * System :=
  ({| c_customer_id := cu_customer_id row;
      c_customer_segment := cu_customer_segment row;
      c_browsing_history := cu_browsing_history row;
      c_purchase_history := cu_purchase_history row;
      c_location := cu_location row;
      c_season := cu_season row;
      c_holiday_shopping := cu_holiday row;
      c_price_sensitivity := "medium";
      c_avg_order_value := 0 |},
   ["Books"; "Toys"], sys).

Definition sample_products_table : list Product :=
  [sample_product "P1" "Books" 4.5 None;
   sample_product "P2" "Toys" 3 None;
   sample_product "P3" "Garden" 5 None].

Definition sample_system : System :=
  {| sys_customers := [sample_customer_row];
     sys_products := sample_products_table;
     sys_recommendation := fresh_state |}.

(** An agent whose cache holds something that is no strategy name. *)
Definition odd_state : State :=
  {| memory := {[ "strategy_preference_C1" := Py.VStr "random" ]};
     db := empty_database |}.

(** A recommendation table with one row for ("C1", "P1") and one for
    ("C2", "P1"). *)
Definition rated_state : State :=
  {| memory := ∅;
     db := {| agent_memory := [];
              recommendations :=
                [ {| rr_customer_id := "C1"; rr_product_id := "P1";
                     rr_score := 0.9; rr_reason := "r"; rr_feedback := 0 |};
                  {| rr_customer_id := "C2"; rr_product_id := "P1";
                     rr_score := 0.8; rr_reason := "r"; rr_feedback := 0 |} ] |} |}.

(** The default customer data with a high price sensitivity. *)
Definition price_sensitive_customer : CustomerData :=
  {| c_customer_id := "C1";
     c_customer_segment := "";
     c_browsing_history := [];
     c_purchase_history := [];
     c_location := "";
     c_season := "";
     c_holiday_shopping := false;
     c_price_sensitivity := "high";
     c_avg_order_value := 0 |}.

(** The row [durable_state] holds for "C1". *)
Definition durable_row : MemoryRow :=
  {| m_agent_type := "recommendation";
     m_memory_key := "strategy_preference_C1";
     m_memory_value := "hybrid" |}.

(** The row a rotation from "hybrid" appends for "C1". *)
Definition rotated_row : MemoryRow :=
  {| m_agent_type := "recommendation";
     m_memory_key := "strategy_preference_C1";
     m_memory_value := "collaborative_filtering" |}.

(** An agent started afresh on the database that a negative feedback
    left behind [durable_state]. *)
Definition restarted_state : State :=
  {| memory := ∅;
     db := {| agent_memory := [durable_row; rotated_row];
              recommendations := [] |} |}.

Definition sample_str_of_http_exception (status_code : nat) (detail : string)
    : string := detail.

(** Drops the library parameters from the context of a proof that is not
    about them. *)
Ltac pure_goal :=
  try clear json_loads; try clear str_of_float; try clear get_llm_response;
  try clear get_product_explanation; try clear _analyze_customer_profile;
  try clear str_of_http_exception.

(** ** Properties of the built-ins *)

Lemma Qle_bool_false (x y : Q) : Qle_bool x y = false -> y < x.
Proof.
  intros H. apply Qnot_le_lt. intros Hle.
  apply Qle_bool_iff in Hle. congruence.
Qed.

Lemma py_min_Qmin (a b : Q) : Py.min a b = Qmin a b.
Proof.
  unfold Py.min, Py.Qlt_bool, Qmin, GenericMinMax.gmin, Qle_bool, Qcompare, Z.leb.
  by destruct (Qnum a * QDen b ?= Qnum b * QDen a)%Z.
Qed.

Lemma py_max_Qmax (a b : Q) : Py.max a b = Qmax a b.
Proof.
  unfold Py.max, Py.Qlt_bool, Qmax, GenericMinMax.gmax, Qle_bool, Qcompare, Z.leb.
  rewrite (Z.compare_antisym (Qnum a * QDen b) (Qnum b * QDen a)).
  by destruct (Qnum a * QDen b ?= Qnum b * QDen a)%Z.
Qed.

Lemma clamp01_bounds (x : Q) : 0 <= clamp01 x <= 1.
Proof.
  unfold clamp01.
  destruct (Q.max_spec 0 (Qmin 1 x)) as [[H1 ->]|[H1 ->]];
    destruct (Q.min_spec 1 x) as [[H2 E]|[H2 E]]; rewrite ?E in *; lra.
Qed.

#[local] Instance clamp01_proper : Proper (Qeq ==> Qeq) clamp01.
Proof. intros x y E. unfold clamp01. rewrite E. reflexivity. Qed.

Section Sorting.
Context {A : Type} (key : A -> Q).

Lemma insert_desc_perm (x : A) (l : list A) :
  Py.insert_desc key x l ≡ₚ x :: l.
Proof.
  induction l as [|y l IH]; simpl; [done|].
  destruct (Qle_bool (key y) (key x)); [done|].
  rewrite IH. apply perm_swap.
Qed.

Lemma sorted_desc_perm (l : list A) : Py.sorted_desc key l ≡ₚ l.
Proof.
  induction l as [|x l IH]; simpl; [done|].
  rewrite insert_desc_perm. by rewrite IH.
Qed.

Lemma insert_desc_sorted (x : A) (l : list A) :
  StronglySorted (desc key) l ->
  StronglySorted (desc key) (Py.insert_desc key x l).
Proof.
  induction l as [|y l IH]; simpl; intros Hs.
  - repeat constructor.
  - apply StronglySorted_cons in Hs as [Hy Hl].
    destruct (Qle_bool (key y) (key x)) eqn:E.
    + apply Qle_bool_iff in E.
      constructor; [by constructor|].
      constructor; [exact E|].
      eapply Forall_impl; [exact Hy|].
      intros z Hz. unfold desc in *. lra.
    + apply Qle_bool_false in E.
      constructor; [by apply IH|].
      rewrite insert_desc_perm. constructor; [|exact Hy].
      unfold desc. lra.
Qed.

Lemma sorted_desc_sorted (l : list A) :
  StronglySorted (desc key) (Py.sorted_desc key l).
Proof.
  induction l as [|x l IH]; simpl; [constructor|].
  by apply insert_desc_sorted.
Qed.

(** Stability: the items of any one key value come out in input order. *)
Lemma insert_desc_stable (k : Q) (x : A) (l : list A) :
  List.filter (fun a => Qeq_bool (key a) k) (Py.insert_desc key x l)
  = List.filter (fun a => Qeq_bool (key a) k) (x :: l).
Proof.
  induction l as [|y l IH]; [done|].
  cbn [Py.insert_desc].
  destruct (Qle_bool (key y) (key x)) eqn:E; [done|].
  apply Qle_bool_false in E.
  cbn [List.filter] in *. rewrite IH.
  destruct (Qeq_bool (key x) k) eqn:Ex; [|done].
  destruct (Qeq_bool (key y) k) eqn:Ey; [|done].
  apply Qeq_bool_iff in Ex, Ey. lra.
Qed.

Lemma sorted_desc_stable (k : Q) (l : list A) :
  List.filter (fun a => Qeq_bool (key a) k) (Py.sorted_desc key l)
  = List.filter (fun a => Qeq_bool (key a) k) l.
Proof.
  induction l as [|x l IH]; [done|].
  cbn [Py.sorted_desc foldr]. rewrite insert_desc_stable.
  cbn [List.filter]. fold (Py.sorted_desc key l). by rewrite IH.
Qed.

Lemma sorted_desc_elem_of (x : A) (l : list A) :
  x ∈ Py.sorted_desc key l <-> x ∈ l.
Proof. by rewrite sorted_desc_perm. Qed.

Lemma take_sorted_desc_sorted (n : nat) (l : list A) :
  StronglySorted (desc key) (take n (Py.sorted_desc key l)).
Proof.
  pose proof (sorted_desc_sorted l) as Hs.
  rewrite <- (take_drop n (Py.sorted_desc key l)) in Hs.
  by apply StronglySorted_app_1_l in Hs.
Qed.



End Sorting.

(** ** Relevance scorer *)

Lemma relevance_score_sum (c : CustomerData) (p : Product) :
  relevance_score c p == clamp01 (relevance_sum c p).
Proof.
  unfold relevance_score. rewrite py_max_Qmax, py_min_Qmin. cbv zeta.
  match goal with
  | |- Qmax 0 (Qmin 1 ?x) == _ =>
      change (clamp01 x == clamp01 (relevance_sum c p))
  end.
  apply clamp01_proper.
  unfold relevance_sum, location_adjustment, season_adjustment,
    holiday_adjustment, price_adjustment, rating_adjustment,
    sentiment_adjustment, le_product, at_least, at_most.
  repeat match goal with
         | |- context [bool_decide ?P] => destruct (bool_decide P)
         | |- context [Py.float_le ?a ?b] => destruct (Py.float_le a b)
         end; lra.
Qed.

Lemma relevance_score_bounds (c : CustomerData) (p : Product) :
  0 <= relevance_score c p <= 1.
Proof. rewrite relevance_score_sum. apply clamp01_bounds. Qed.

(** C2. The relevance of a product is its base recommendation
    probability (0.5 when absent) plus the six independent adjustments
    (location +0.15; season +0.10; holiday +0.10; price fit +0.10 or
    -0.10 against [avg_order_value] times the multiplier low 1.5, medium
    1.0, high 0.7; rating +0.10 / -0.10; sentiment +0.05 / -0.05),
    clamped once to [0,1]; it lies in [0,1]; and the scorer returns
    copies that differ from its inputs only in [relevance_score]. *)
Theorem relevance_scorer_sum_clamped (products : list Product) (c : CustomerData) :
  (price_factor "low" == 1.5 /\ price_factor "medium" == 1.0
   /\ price_factor "high" == 0.7)
  /\ Forall2
       (fun p p' =>
          scored_copy_of p p'
          /\ exists s, p_relevance_score p' = Some s
                       /\ s == clamp01 (relevance_sum c p)
                       /\ 0 <= s <= 1)
       products (_filter_products_for_customer products c).
Proof.
  split; [by repeat split|].
  unfold _filter_products_for_customer.
  induction products as [|p ps IH]; constructor; [|exact IH].
  split; [by repeat split|].
  exists (relevance_score c p).
  split; [done|]. split; [apply relevance_score_sum|apply relevance_score_bounds].
Qed.

(** ** Strategy engines *)

(** C9. On an empty candidate list each of the four engines returns the
    empty list; the engines are total, and the emptiness test comes
    before any field of a candidate is read. *)
Theorem empty_candidates_empty_recommendations
    (c : CustomerData) (pd : ProductData) :
  available_products pd = [] ->
  _collaborative_filtering_strategy c pd = []
  /\ _content_based_strategy c pd = []
  /\ _popularity_based_strategy c pd = []
  /\ _hybrid_strategy c pd = [].
Proof.
  intros H.
  unfold _hybrid_strategy, hybrid_all_recs, _collaborative_filtering_strategy,
    _content_based_strategy, _popularity_based_strategy.
  rewrite H. done.
Qed.

Lemma collaborative_unfold (c : CustomerData) (pd : ProductData) :
  _collaborative_filtering_strategy c pd
  = map (collaborative_rec (c_customer_segment c))
        (take 10 (Py.sorted_desc get_relevance_score (available_products pd))).
Proof.
  unfold _collaborative_filtering_strategy.
  by destruct (available_products pd).
Qed.

Lemma content_unfold (c : CustomerData) (pd : ProductData) :
  _content_based_strategy c pd
  = take 10 (Py.sorted_desc r_score
               (map (content_scored (c_browsing_history c) (c_purchase_history c))
                    (available_products pd))).
Proof.
  unfold _content_based_strategy.
  by destruct (available_products pd).
Qed.

Lemma popularity_unfold (c : CustomerData) (pd : ProductData) :
  _popularity_based_strategy c pd
  = map popularity_rec
        (take 10 (Py.sorted_desc p_product_rating (available_products pd))).
Proof.
  unfold _popularity_based_strategy.
  by destruct (available_products pd).
Qed.

Lemma content_scored_score (c : CustomerData) (p : Product) :
  r_score (content_scored (c_browsing_history c) (c_purchase_history c) p)
  == get_relevance_score p + content_boost c (p_category p).
Proof.
  unfold content_scored, content_boost. cbn.
  do 2 case_bool_decide; lra.
Qed.

(** C8. The popularity engine returns at most ten recommendations: the
    first ten candidates in descending order of [product_rating], equal
    ratings in their input order, each scored [product_rating / 5.0];
    ratings 4.5 and 3.0 give scores 0.9 and 0.6 in that order. *)
Theorem popularity_ranking (c : CustomerData) (pd : ProductData) :
  let candidates := available_products pd in
  let ranked := Py.sorted_desc p_product_rating candidates in
  _popularity_based_strategy c pd = map popularity_rec (take 10 ranked)
  /\ (length (_popularity_based_strategy c pd) <= 10)%nat
  /\ ranked ≡ₚ candidates
  /\ StronglySorted (desc p_product_rating) ranked
  /\ (forall k,
        List.filter (fun p => Qeq_bool (p_product_rating p) k) ranked
        = List.filter (fun p => Qeq_bool (p_product_rating p) k) candidates)
  /\ (forall p,
        r_product_id (popularity_rec p) = p_product_id p
        /\ r_score (popularity_rec p) == p_product_rating p / 5)
  /\ scores_are
       (_popularity_based_strategy c
          {| pd_products := Some [sample_product "P1" "Books" 4.5 None;
                                  sample_product "P2" "Books" 3.0 None] |})
       [("P1", 0.9); ("P2", 0.6)].
Proof.
  intros candidates ranked.
  split; [apply popularity_unfold|].
  split; [rewrite popularity_unfold, length_map, length_take; lia|].
  split; [apply sorted_desc_perm|].
  split; [apply sorted_desc_sorted|].
  split; [intros k; apply sorted_desc_stable|].
  split; [intros p; split; [done|]; cbn;
          by assert (5.0 == 5) as -> by reflexivity|].
  repeat constructor.
Qed.


(** ** The hybrid merge table *)

Lemma dict_get_app (k : string) (d d' : list (string * Recommendation)) :
  dict_get k (d ++ d')
  = match dict_get k d with Some v => Some v | None => dict_get k d' end.
Proof.
  induction d as [|[k' v] d IH]; [done|].
  simpl. by destruct (String.eqb k' k).
Qed.

Lemma dict_get_update (k k' : string) (f : Recommendation -> Recommendation)
    (d : list (string * Recommendation)) :
  dict_get k' (dict_update k f d)
  = if String.eqb k k' then f <$> dict_get k' d else dict_get k' d.
Proof.
  induction d as [|[k0 v] d IH]; simpl.
  - by destruct (String.eqb k k').
  - destruct (String.eqb_spec k0 k) as [->|Hne]; simpl.
    + by destruct (String.eqb_spec k k').
    + destruct (String.eqb_spec k0 k') as [->|Hne'].
      * destruct (String.eqb_spec k k'); [congruence|done].
      * exact IH.
Qed.

Lemma dict_update_keys (k : string) (f : Recommendation -> Recommendation)
    (d : list (string * Recommendation)) :
  map fst (dict_update k f d) = map fst d.
Proof.
  induction d as [|[k0 v] d IH]; [done|].
  simpl. destruct (String.eqb k0 k); simpl; by rewrite ?IH.
Qed.

Lemma dict_get_None (k : string) (d : list (string * Recommendation)) :
  dict_get k d = None <-> k ∉ map fst d.
Proof.
  pure_goal. induction d as [|[k0 v] d IH]; simpl.
  - split; [intros _; apply not_elem_of_nil|done].
  - rewrite not_elem_of_cons.
    destruct (String.eqb_spec k0 k) as [->|Hne].
    + split; [done|]. intros [Hk _]. by destruct Hk.
    + rewrite IH. split; [|tauto]. intros Hk. split; [congruence|done].
Qed.

Lemma dict_get_Some_elem (k : string) (v : Recommendation)
    (d : list (string * Recommendation)) :
  dict_get k d = Some v -> (k, v) ∈ d.
Proof.
  induction d as [|[k0 v0] d IH]; simpl; [done|].
  destruct (String.eqb_spec k0 k) as [->|Hne].
  - intros [= ->]. apply list_elem_of_here.
  - intros H. apply list_elem_of_further. by apply IH.
Qed.

Lemma dict_get_elem (k : string) (v : Recommendation)
    (d : list (string * Recommendation)) :
  NoDup (map fst d) -> (k, v) ∈ d -> dict_get k d = Some v.
Proof.
  induction d as [|[k0 v0] d IH]; simpl; intros Hnd Hin.
  - by apply elem_of_nil in Hin.
  - apply NoDup_cons in Hnd as [Hk0 Hnd].
    apply elem_of_cons in Hin as [[= -> ->]|Hin].
    + by rewrite String.eqb_refl.
    + destruct (String.eqb_spec k0 k) as [->|Hne]; [|by apply IH].
      exfalso. apply Hk0.
      apply (list_elem_of_fmap_2 fst) in Hin. exact Hin.
Qed.

Lemma add_weighted_get (w : Q) (b : bool) (d : list (string * Recommendation))
    (rec : Recommendation) (k : string) :
  dict_get k (add_weighted w b d rec)
  = if String.eqb (r_product_id rec) k
    then Some (merge_entry w b (dict_get k d) rec)
    else dict_get k d.
Proof.
  unfold add_weighted.
  destruct (dict_get (r_product_id rec) d) as [cur|] eqn:E.
  - rewrite dict_get_update.
    destruct (String.eqb_spec (r_product_id rec) k) as [<-|Hne]; [|done].
    rewrite E. done.
  - rewrite dict_get_app. simpl.
    destruct (String.eqb_spec (r_product_id rec) k) as [<-|Hne].
    + by rewrite E.
    + by destruct (dict_get k d).
Qed.

Lemma merge_entry_id (w : Q) (b : bool) (cur : option Recommendation)
    (rec : Recommendation) :
  r_product_id (merge_entry w b cur rec)
  = from_option r_product_id (r_product_id rec) cur.
Proof. destruct cur; simpl; by destruct b. Qed.

Lemma add_weighted_wf (w : Q) (b : bool) (d : list (string * Recommendation))
    (rec : Recommendation) :
  table_wf d -> table_wf (add_weighted w b d rec).
Proof.
  intros [Hnd Hid]. unfold add_weighted.
  destruct (dict_get (r_product_id rec) d) as [cur|] eqn:E; split.
  - by rewrite dict_update_keys.
  - intros k v Hin.
    assert (Hnd' : NoDup (map fst (dict_update (r_product_id rec)
      (fun cur => let cur := set_score cur (r_score cur + r_score rec * w) in
         if b then set_reason cur (r_reason cur ++ " and " ++ r_reason rec)
         else cur) d))) by by rewrite dict_update_keys.
    pose proof (dict_get_elem _ _ _ Hnd' Hin) as Hget.
    rewrite dict_get_update in Hget.
    destruct (String.eqb_spec (r_product_id rec) k) as [<-|Hne].
    + rewrite E in Hget. simpl in Hget. injection Hget as <-.
      apply dict_get_Some_elem, Hid in E. by destruct b.
    + by apply Hid, dict_get_Some_elem.
  - rewrite map_app. apply NoDup_app. split; [done|]. split.
    + intros x Hx Hx'. simpl in Hx'. apply list_elem_of_singleton in Hx'. subst x.
      by apply dict_get_None in E.
    + simpl. apply NoDup_singleton.
  - intros k v Hin. apply elem_of_app in Hin as [Hin|Hin]; [by apply Hid|].
    apply list_elem_of_singleton in Hin. by injection Hin as -> ->.
Qed.

Lemma foldl_add_weighted_wf (w : Q) (b : bool) (l : list Recommendation)
    (d : list (string * Recommendation)) :
  table_wf d -> table_wf (foldl (add_weighted w b) d l).
Proof.
  revert d. induction l as [|rec l IH]; intros d Hd; [done|].
  simpl. by apply IH, add_weighted_wf.
Qed.

Lemma find_rec_None (k : string) (l : list Recommendation) :
  find_rec k l = None <-> k ∉ map r_product_id l.
Proof.
  pure_goal. unfold find_rec. induction l as [|r l IH]; simpl.
  - split; [intros _; apply not_elem_of_nil|done].
  - rewrite not_elem_of_cons.
    destruct (String.eqb_spec (r_product_id r) k) as [<-|Hne].
    + split; [done|]. intros [Hk _]. by destruct Hk.
    + rewrite IH. split; [|tauto]. intros Hk. split; [congruence|done].
Qed.

Lemma find_rec_Some (k : string) (r : Recommendation) (l : list Recommendation) :
  find_rec k l = Some r -> r ∈ l /\ r_product_id r = k.
Proof.
  unfold find_rec. induction l as [|r0 l IH]; simpl; [done|].
  destruct (String.eqb_spec (r_product_id r0) k) as [<-|Hne].
  - intros [= ->]. split; [apply list_elem_of_here|done].
  - intros H. destruct (IH H). split; [by apply list_elem_of_further|done].
Qed.

Lemma find_rec_elem (r : Recommendation) (l : list Recommendation) :
  NoDup (map r_product_id l) -> r ∈ l -> find_rec (r_product_id r) l = Some r.
Proof.
  unfold find_rec. induction l as [|r0 l IH]; simpl; intros Hnd Hin.
  - by apply elem_of_nil in Hin.
  - apply NoDup_cons in Hnd as [Hr0 Hnd].
    apply elem_of_cons in Hin as [->|Hin]; [by rewrite String.eqb_refl|].
    destruct (String.eqb_spec (r_product_id r0) (r_product_id r)) as [Heq|Hne];
      [|by apply IH].
    exfalso. apply Hr0. rewrite Heq. by apply list_elem_of_fmap_2.
Qed.

(** One merge loop, seen from a single key. *)
Lemma foldl_add_weighted_get (w : Q) (b : bool) (l : list Recommendation) :
  NoDup (map r_product_id l) ->
  forall (d : list (string * Recommendation)) (k : string),
    dict_get k (foldl (add_weighted w b) d l)
    = match find_rec k l with
      | Some rec => Some (merge_entry w b (dict_get k d) rec)
      | None => dict_get k d
      end.
Proof.
  induction l as [|rec l IH]; intros Hnd d k; [done|].
  cbn [map] in Hnd. apply NoDup_cons in Hnd as [Hrec Hnd].
  cbn [foldl]. rewrite (IH Hnd), add_weighted_get.
  unfold find_rec at 2. cbn [List.find]. fold (find_rec k l).
  destruct (String.eqb_spec (r_product_id rec) k) as [<-|Hne]; [|done].
  by apply find_rec_None in Hrec as ->.
Qed.

Lemma foldl_add_weighted_score (w : Q) (b : bool) (l : list Recommendation)
    (d : list (string * Recommendation)) (k : string) :
  NoDup (map r_product_id l) ->
  from_option r_score 0 (dict_get k (foldl (add_weighted w b) d l))
  == from_option r_score 0 (dict_get k d) + w * score_in l k.
Proof.
  intros Hnd. rewrite (foldl_add_weighted_get w b l Hnd). unfold score_in.
  destruct (find_rec k l) as [rec|]; destruct (dict_get k d) as [cur|];
    destruct b; simpl; ring.
Qed.


Lemma foldl_add_weighted_keys (w : Q) (b : bool) (l : list Recommendation)
    (d : list (string * Recommendation)) (k : string) :
  k ∈ map fst (foldl (add_weighted w b) d l)
  <-> k ∈ map fst d \/ k ∈ map r_product_id l.
Proof.
  pure_goal. revert d. induction l as [|rec l IH]; intros d; cbn [foldl map].
  - rewrite elem_of_nil. tauto.
  - rewrite IH, elem_of_cons. unfold add_weighted.
    destruct (dict_get (r_product_id rec) d) as [cur|] eqn:E.
    + rewrite dict_update_keys.
      apply dict_get_Some_elem, (list_elem_of_fmap_2 fst) in E. simpl in E.
      split; [tauto|]. intros [Hk|[->|Hk]]; tauto.
    + rewrite map_app, elem_of_app. simpl. rewrite list_elem_of_singleton.
      tauto.
Qed.

Lemma table_values_ids (d : list (string * Recommendation)) :
  table_wf d -> map r_product_id (map snd d) = map fst d.
Proof.
  intros [_ Hid]. induction d as [|[k v] d IH]; [done|].
  simpl. f_equal.
  - apply (Hid k v), list_elem_of_here.
  - apply IH. intros k' v' Hin. by apply Hid, list_elem_of_further.
Qed.

Lemma table_values_get (d : list (string * Recommendation)) (r : Recommendation) :
  table_wf d -> r ∈ map snd d -> dict_get (r_product_id r) d = Some r.
Proof.
  intros [Hnd Hid] Hin.
  apply list_elem_of_fmap in Hin as ([k v] & -> & Hin). simpl.
  rewrite (Hid k v Hin). by apply dict_get_elem.
Qed.

Lemma NoDup_take_sorted {A B} (f : A -> B) (key : A -> Q) (n : nat) (l : list A) :
  NoDup (map f l) -> NoDup (map f (take n (Py.sorted_desc key l))).
Proof.
  intros Hnd.
  change (NoDup (f <$> take n (Py.sorted_desc key l))).
  rewrite fmap_take.
  eapply sublist_NoDup; [|apply sublist_take].
  change (NoDup (map f (Py.sorted_desc key l))).
  by rewrite (sorted_desc_perm key l).
Qed.

(** ** Sub-engine outputs *)

Lemma elem_of_take_sorted {A} (key : A -> Q) (n : nat) (l : list A) (x : A) :
  x ∈ take n (Py.sorted_desc key l) -> x ∈ l.
Proof.
  intros Hx. apply (sorted_desc_elem_of key).
  by apply (subseteq_take n).
Qed.

Lemma collaborative_ids_NoDup (c : CustomerData) (pd : ProductData) :
  NoDup (map p_product_id (available_products pd)) ->
  NoDup (map r_product_id (_collaborative_filtering_strategy c pd)).
Proof.
  intros Hnd. rewrite collaborative_unfold, map_map. cbn [collaborative_rec r_product_id].
  by apply NoDup_take_sorted.
Qed.

Lemma popularity_ids_NoDup (c : CustomerData) (pd : ProductData) :
  NoDup (map p_product_id (available_products pd)) ->
  NoDup (map r_product_id (_popularity_based_strategy c pd)).
Proof.
  intros Hnd. rewrite popularity_unfold, map_map. cbn [popularity_rec r_product_id].
  by apply NoDup_take_sorted.
Qed.

Lemma content_ids_NoDup (c : CustomerData) (pd : ProductData) :
  NoDup (map p_product_id (available_products pd)) ->
  NoDup (map r_product_id (_content_based_strategy c pd)).
Proof.
  intros Hnd. rewrite content_unfold.
  apply NoDup_take_sorted. by rewrite map_map.
Qed.

Lemma collaborative_elem (c : CustomerData) (pd : ProductData) (r : Recommendation) :
  r ∈ _collaborative_filtering_strategy c pd ->
  exists p, p ∈ available_products pd
            /\ r = collaborative_rec (c_customer_segment c) p.
Proof.
  rewrite collaborative_unfold. intros Hr.
  apply list_elem_of_fmap in Hr as (p & -> & Hp).
  exists p. split; [by eapply elem_of_take_sorted|done].
Qed.

Lemma popularity_elem (c : CustomerData) (pd : ProductData) (r : Recommendation) :
  r ∈ _popularity_based_strategy c pd ->
  exists p, p ∈ available_products pd /\ r = popularity_rec p.
Proof.
  rewrite popularity_unfold. intros Hr.
  apply list_elem_of_fmap in Hr as (p & -> & Hp).
  exists p. split; [by eapply elem_of_take_sorted|done].
Qed.

Lemma content_elem (c : CustomerData) (pd : ProductData) (r : Recommendation) :
  r ∈ _content_based_strategy c pd ->
  exists p, p ∈ available_products pd
            /\ r = content_scored (c_browsing_history c) (c_purchase_history c) p.
Proof.
  rewrite content_unfold. intros Hr.
  apply elem_of_take_sorted, list_elem_of_fmap in Hr as (p & -> & Hp).
  by exists p.
Qed.

Lemma content_boost_bounds (c : CustomerData) (category : string) :
  0 <= content_boost c category <= 0.25.
Proof. unfold content_boost. do 2 case_bool_decide; lra. Qed.

Lemma score_in_bounds (l : list Recommendation) (k : string) (hi : Q) :
  0 <= hi ->
  (forall r, r ∈ l -> 0 <= r_score r <= hi) ->
  0 <= score_in l k <= hi.
Proof.
  intros Hhi Hl. unfold score_in.
  destruct (find_rec k l) as [r|] eqn:E; simpl; [|lra].
  apply find_rec_Some in E as [Hr _]. by apply Hl.
Qed.

(** ** The hybrid engine *)

Lemma hybrid_all_recs_wf (c : CustomerData) (pd : ProductData) :
  table_wf (hybrid_all_recs c pd).
Proof.
  unfold hybrid_all_recs. do 3 apply foldl_add_weighted_wf.
  split; [constructor|]. intros k v Hin. by apply elem_of_nil in Hin.
Qed.

Lemma hybrid_elem_merged (c : CustomerData) (pd : ProductData) (r : Recommendation) :
  r ∈ _hybrid_strategy c pd -> r ∈ map snd (hybrid_all_recs c pd).
Proof. unfold _hybrid_strategy. apply elem_of_take_sorted. Qed.

Lemma hybrid_score (c : CustomerData) (pd : ProductData) (r : Recommendation) :
  NoDup (map p_product_id (available_products pd)) ->
  r ∈ map snd (hybrid_all_recs c pd) ->
  r_score r
  == 0.4 * score_in (_collaborative_filtering_strategy c pd) (r_product_id r)
     + 0.4 * score_in (_content_based_strategy c pd) (r_product_id r)
     + 0.2 * score_in (_popularity_based_strategy c pd) (r_product_id r).
Proof.
  intros Hnd Hr.
  pose proof (table_values_get _ _ (hybrid_all_recs_wf c pd) Hr) as Hget.
  pose proof (f_equal (from_option r_score 0) Hget) as Hs. simpl in Hs.
  rewrite <- Hs. unfold hybrid_all_recs.
  rewrite foldl_add_weighted_score by by apply popularity_ids_NoDup.
  rewrite foldl_add_weighted_score by by apply content_ids_NoDup.
  rewrite foldl_add_weighted_score by by apply collaborative_ids_NoDup.
  simpl. ring.
Qed.


Lemma hybrid_keys (c : CustomerData) (pd : ProductData) (k : string) :
  k ∈ map r_product_id (map snd (hybrid_all_recs c pd))
  <-> k ∈ map r_product_id (_collaborative_filtering_strategy c pd)
      \/ k ∈ map r_product_id (_content_based_strategy c pd)
      \/ k ∈ map r_product_id (_popularity_based_strategy c pd).
Proof.
  rewrite (table_values_ids _ (hybrid_all_recs_wf c pd)).
  unfold hybrid_all_recs. rewrite !foldl_add_weighted_keys.
  simpl. rewrite elem_of_nil. pure_goal. tauto.
Qed.


(** C1 (as amended). No engine clamps its scores.  For candidates whose
    [relevance_score] lies in [0,1] and whose [product_rating] lies in
    [0,5], collaborative and popularity scores lie in [0,1], content-based
    scores lie in [0,1.25], and, the candidate ids being pairwise
    distinct, hybrid scores lie in [0,1.1]. *)
Theorem engine_score_bounds (c : CustomerData) (pd : ProductData) :
  (forall p, p ∈ available_products pd ->
             0 <= get_relevance_score p <= 1 /\ 0 <= p_product_rating p <= 5) ->
  (forall r, r ∈ _collaborative_filtering_strategy c pd -> 0 <= r_score r <= 1)
  /\ (forall r, r ∈ _popularity_based_strategy c pd -> 0 <= r_score r <= 1)
  /\ (forall r, r ∈ _content_based_strategy c pd -> 0 <= r_score r <= 1.25)
  /\ (NoDup (map p_product_id (available_products pd)) ->
      forall r, r ∈ _hybrid_strategy c pd -> 0 <= r_score r <= 1.1).
Proof.
  intros Hb.
  assert (Hc : forall r, r ∈ _collaborative_filtering_strategy c pd ->
                         0 <= r_score r <= 1).
  { intros r (p & Hp & ->)%collaborative_elem. by apply Hb. }
  assert (Hp : forall r, r ∈ _popularity_based_strategy c pd ->
                         0 <= r_score r <= 1).
  { intros r (p & Hp & ->)%popularity_elem. apply Hb in Hp as [_ Hp].
    cbn [popularity_rec r_score].
    assert (H5 : p_product_rating p / 5.0 == p_product_rating p * 0.2)
      by (unfold Qdiv; apply Qmult_comp; reflexivity).
    rewrite H5. lra. }
  assert (Ht : forall r, r ∈ _content_based_strategy c pd ->
                         0 <= r_score r <= 1.25).
  { intros r (p & Hp' & ->)%content_elem. apply Hb in Hp' as [Hr _].
    rewrite content_scored_score.
    pose proof (content_boost_bounds c (p_category p)). lra. }
  split; [exact Hc|]. split; [exact Hp|]. split; [exact Ht|].
  intros Hnd r Hr.
  apply hybrid_elem_merged in Hr. rewrite (hybrid_score c pd r Hnd Hr).
  pose proof (score_in_bounds _ (r_product_id r) 1 ltac:(lra) Hc).
  pose proof (score_in_bounds _ (r_product_id r) 1.25 ltac:(lra) Ht).
  pose proof (score_in_bounds _ (r_product_id r) 1 ltac:(lra) Hp).
  lra.
Qed.

(** ** Agent memory *)

Lemma recall_memory_cached (agent key : string) (st : State) (v : Py.value) :
  memory st !! key = Some v -> recall_memory agent key st = (v, st).
Proof. intros H. unfold recall_memory. by rewrite H. Qed.

Lemma recall_memory_absent (agent key : string) (st : State) :
  memory st !! key = None ->
  get_agent_memory agent key (db st) = [] ->
  recall_memory agent key st = (Py.VNone, st).
Proof. intros H1 H2. unfold recall_memory. by rewrite H1, H2. Qed.

(** Once recalled, a value is served from the cache. *)
Lemma recall_memory_again (agent key : string) (st : State) :
  recall_memory agent key (recall_memory agent key st).2
  = recall_memory agent key st.
Proof.
  unfold recall_memory at 2 3.
  destruct (memory st !! key) as [v|] eqn:E; simpl.
  - by apply recall_memory_cached.
  - destruct (get_agent_memory agent key (db st)) as [|row rows] eqn:Er; simpl.
    + by apply recall_memory_absent.
    + apply recall_memory_cached. simpl. apply lookup_insert_eq.
Qed.

Lemma recall_memory_db (agent key : string) (st : State) :
  db (recall_memory agent key st).2 = db st.
Proof.
  unfold recall_memory.
  destruct (memory st !! key); [done|].
  by destruct (get_agent_memory agent key (db st)).
Qed.

Lemma recall_store_memory (agent key value : string) (st : State) :
  recall_memory agent key (store_memory agent key value st)
  = (Py.VStr value, store_memory agent key value st).
Proof. apply recall_memory_cached. simpl. apply lookup_insert_eq. Qed.

(** ** Strategy selector *)

Lemma default_policy_code (c : CustomerData) :
  (if String.eqb (c_customer_segment c) "New Visitor" then "popularity_based"
   else if String.eqb (c_customer_segment c) "Frequent Buyer"
        then "collaborative_filtering"
   else if (length (c_purchase_history c) <? length (c_browsing_history c))%nat
        then "content_based"
   else "hybrid")
  = default_policy c.
Proof.
  unfold default_policy.
  destruct (String.eqb_spec (c_customer_segment c) "New Visitor");
    [by rewrite bool_decide_eq_true_2|rewrite bool_decide_eq_false_2 by done].
  destruct (String.eqb_spec (c_customer_segment c) "Frequent Buyer");
    [by rewrite bool_decide_eq_true_2|rewrite bool_decide_eq_false_2 by done].
  destruct (Nat.ltb_spec (length (c_purchase_history c))
                         (length (c_browsing_history c)));
    [by rewrite bool_decide_eq_true_2|rewrite bool_decide_eq_false_2 by lia].
  done.
Qed.

Lemma default_policy_strategy (c : CustomerData) : default_policy c ∈ strategies.
Proof.
  unfold default_policy, strategies.
  repeat case_bool_decide; repeat first [apply list_elem_of_here|apply list_elem_of_further].
Qed.

Lemma strategy_truthy (s : string) : s ∈ strategies -> Py.truthy (Py.VStr s) = true.
Proof.
  unfold strategies. rewrite !elem_of_cons, elem_of_nil.
  intros [->|[->|[->|[->|[]]]]]; done.
Qed.

Lemma select_stored (c : CustomerData) (st st' : State) (v : Py.value) :
  recall_memory agent_name (strategy_key (c_customer_id c)) st = (v, st') ->
  Py.truthy v = true ->
  _select_recommendation_strategy c st = (v, st').
Proof.
  intros Hr Ht. unfold _select_recommendation_strategy. cbv zeta.
  by rewrite Hr, Ht.
Qed.

Lemma select_default (c : CustomerData) (st st' : State) (v : Py.value) :
  recall_memory agent_name (strategy_key (c_customer_id c)) st = (v, st') ->
  Py.truthy v = false ->
  _select_recommendation_strategy c st
  = (Py.VStr (default_policy c),
     store_memory agent_name (strategy_key (c_customer_id c))
                  (default_policy c) st').
Proof.
  intros Hr Ht. unfold _select_recommendation_strategy. cbv zeta.
  by rewrite Hr, Ht, default_policy_code.
Qed.

(** C5. The selector's rules, first match wins: a stored preference,
    whether held in the cache or only in the durable table, is returned
    unchanged; with no preference the default policy applies (segment
    "New Visitor": popularity_based; else "Frequent Buyer":
    collaborative_filtering; else a longer browsing than purchase
    history: content_based; else hybrid), and the choice is written to
    the cache and appended to the durable table before returning. *)
Theorem selector_policy (c : CustomerData) (st : State) :
  let key := strategy_key (c_customer_id c) in
  (forall v, memory st !! key = Some v -> Py.truthy v = true ->
             _select_recommendation_strategy c st = (v, st))
  /\ (forall row rows,
        memory st !! key = None ->
        get_agent_memory agent_name key (db st) = row :: rows ->
        json_loads (m_memory_value row) = None ->
        m_memory_value row <> "" ->
        _select_recommendation_strategy c st
        = (Py.VStr (m_memory_value row),
           {| memory := <[key := Py.VStr (m_memory_value row)]> (memory st);
              db := db st |}))
  /\ (memory st !! key = None ->
      get_agent_memory agent_name key (db st) = [] ->
      let chosen :=
        if bool_decide (c_customer_segment c = "New Visitor")
        then "popularity_based"
        else if bool_decide (c_customer_segment c = "Frequent Buyer")
        then "collaborative_filtering"
        else if bool_decide (length (c_purchase_history c)
                             < length (c_browsing_history c))%nat
        then "content_based"
        else "hybrid" in
      let st' := (_select_recommendation_strategy c st).2 in
      _select_recommendation_strategy c st = (Py.VStr chosen, st')
      /\ memory st' = <[key := Py.VStr chosen]> (memory st)
      /\ agent_memory (db st')
         = (agent_memory (db st)
            ++ [ {| m_agent_type := "recommendation";
                    m_memory_key := key;
                    m_memory_value := chosen |} ])%list
      /\ recommendations (db st') = recommendations (db st)).
Proof.
  intros key. split; [|split].
  - intros v Hm Ht. apply select_stored; [|done].
    by apply recall_memory_cached.
  - intros row rows Hm Hdb Hj Hne. apply select_stored.
    + unfold recall_memory. fold key. by rewrite Hm, Hdb, Hj.
    + simpl. by destruct (String.eqb_spec (m_memory_value row) "").
  - intros Hm Hdb chosen st'. subst st'.
    rewrite (select_default c st st Py.VNone);
      [done|by apply recall_memory_absent|done].
Qed.

Lemma recall_caches (agent key : string) (st st' : State) (v : Py.value) :
  recall_memory agent key st = (v, st') -> Py.truthy v = true ->
  memory st' !! key = Some v.
Proof.
  unfold recall_memory.
  destruct (memory st !! key) as [v0|] eqn:E.
  - by intros [= <- <-].
  - destruct (get_agent_memory agent key (db st)) as [|row rows].
    + by intros [= <- <-].
    + intros [= <- <-] _. cbn. apply lookup_insert_eq.
Qed.

Lemma select_caches (c : CustomerData) (st : State) :
  memory (_select_recommendation_strategy c st).2
    !! strategy_key (c_customer_id c)
  = Some (_select_recommendation_strategy c st).1
  /\ Py.truthy (_select_recommendation_strategy c st).1 = true.
Proof.
  destruct (recall_memory agent_name (strategy_key (c_customer_id c)) st)
    as [v st'] eqn:Hr.
  destruct (Py.truthy v) eqn:Ht.
  - rewrite (select_stored c st st' v Hr Ht). cbn.
    split; [by eapply recall_caches|done].
  - rewrite (select_default c st st' v Hr Ht). cbn.
    split; [apply lookup_insert_eq|].
    apply strategy_truthy, default_policy_strategy.
Qed.

Lemma select_from_cache (c : CustomerData) (st : State) (v : Py.value) :
  memory st !! strategy_key (c_customer_id c) = Some v ->
  Py.truthy v = true ->
  _select_recommendation_strategy c st = (v, st).
Proof.
  intros Hm Ht. apply select_stored; [|done]. by apply recall_memory_cached.
Qed.

(** C6. Selection is idempotent per customer: whatever state the first
    call starts from, it leaves the strategy it returns in the agent's
    memory under the customer's key, and a second call for the same
    customer, with nothing in between, returns that stored strategy and
    changes nothing, even when the customer data it is given would make
    the default policy choose otherwise. *)
Theorem select_idempotent (c c' : CustomerData) (st : State) :
  c_customer_id c' = c_customer_id c ->
  let first := _select_recommendation_strategy c st in
  memory first.2 !! strategy_key (c_customer_id c) = Some first.1
  /\ Py.truthy first.1 = true
  /\ _select_recommendation_strategy c' first.2 = first.
Proof.
  intros Hid first. subst first.
  destruct (select_caches c st) as [Hc Ht].
  split; [exact Hc|]. split; [exact Ht|].
  rewrite (select_from_cache c' _ (_select_recommendation_strategy c st).1);
    [by destruct (_select_recommendation_strategy c st)| |exact Ht].
  by rewrite Hid.
Qed.

(** ** Feedback learner *)

Lemma rotation_code (cur : string) :
  cur ∈ strategies ->
  nth ((default 0%nat (index_of (Py.VStr cur) strategies) + 1)
       mod length strategies)%nat strategies ""
  = next_in_cycle cur.
Proof.
  unfold strategies. rewrite !elem_of_cons, elem_of_nil.
  intros [->|[->|[->|[->|[]]]]]; done.
Qed.

(** C4 (as amended). With a stored preference [cur] (one of the four
    strategies), a negative feedback, -1 in particular, answers with
    the next strategy of the cycle collaborative_filtering,
    content_based, popularity_based, hybrid, collaborative_filtering,
    puts it in the agent's memory in place of [cur] and appends it as a
    new row to the [agent_memory] table, whose earlier rows stay as
    they are; the agent then recalls the new preference, one position
    further per negative feedback.  With feedback >= 0, or with no
    stored preference, memory and table keep the preference they had. *)
Theorem feedback_rotation
    (customer_id product_id : string) (feedback : Z) (st : State) :
  let key := strategy_key customer_id in
  let out := _learn_from_feedback customer_id product_id feedback st in
  map next_in_cycle strategies
  = ["content_based"; "popularity_based"; "hybrid"; "collaborative_filtering"]
  /\ (forall cur st1,
        recall_memory agent_name key st = (Py.VStr cur, st1) ->
        cur ∈ strategies ->
        ((feedback < 0)%Z ->
         out.1 = LearnedFromFeedback (Py.VStr cur) (next_in_cycle cur)
         /\ memory out.2 = <[key := Py.VStr (next_in_cycle cur)]> (memory st1)
         /\ agent_memory (db out.2)
            = (agent_memory (db st)
               ++ [ {| m_agent_type := "recommendation";
                       m_memory_key := key;
                       m_memory_value := next_in_cycle cur |} ])%list
         /\ recommendations (db out.2) = recommendations (db st)
         /\ recall_memory agent_name key out.2
            = (Py.VStr (next_in_cycle cur), out.2))
        /\ ((0 <= feedback)%Z ->
            out = (FeedbackRecorded (Py.VStr cur), st1)
            /\ recall_memory agent_name key st1 = (Py.VStr cur, st1)
            /\ db st1 = db st))
  /\ (memory st !! key = None ->
      get_agent_memory agent_name key (db st) = [] ->
      out = (FeedbackRecorded Py.VNone, st)).
Proof.
  intros key out. subst out. split; [done|]. split.
  - intros cur st1 Hr Hcur.
    pose proof (recall_memory_again agent_name key st) as Hagain.
    pose proof (recall_memory_db agent_name key st) as Hdb.
    rewrite Hr in Hagain, Hdb. simpl in Hagain, Hdb.
    split.
    + intros Hneg.
      assert (Hl : _learn_from_feedback customer_id product_id feedback st
                   = (LearnedFromFeedback (Py.VStr cur) (next_in_cycle cur),
                      store_memory agent_name key (next_in_cycle cur) st1)).
      { unfold _learn_from_feedback. cbv zeta. fold key. rewrite Hr.
        rewrite (strategy_truthy cur Hcur).
        destruct (Z.ltb_spec feedback 0); [|lia].
        cbn [andb]. by rewrite (rotation_code cur Hcur). }
      rewrite Hl. cbn [fst snd store_memory store_agent_memory memory db
                       agent_memory recommendations].
      rewrite Hdb.
      split; [done|]. split; [done|]. split; [done|]. split; [done|].
      apply (recall_store_memory agent_name key (next_in_cycle cur) st1).
    + intros Hpos. split; [|done].
      unfold _learn_from_feedback. cbv zeta. fold key. rewrite Hr.
      destruct (Z.ltb_spec feedback 0); [lia|done].
  - intros Hm Hdb.
    unfold _learn_from_feedback. cbv zeta. fold key.
    rewrite (recall_memory_absent _ _ _ Hm Hdb).
    by rewrite andb_false_r.
Qed.

(** ** Feedback entry points *)

(** C10. A feedback value of 0 is rejected by both entry points with
    "Missing required feedback data", exactly as a missing [feedback]
    key is, and the state (stored preference, recommendation rows) is
    left as it was. *)
Theorem zero_feedback_rejected
    (action : option string) (customer_data : option CustomerData)
    (product_data : option ProductData)
    (customer_id product_id : option string) (st : State) :
  let input action feedback :=
    {| i_action := action;
       i_customer_data := customer_data;
       i_product_data := product_data;
       i_customer_id := customer_id;
       i_product_id := product_id;
       i_feedback := feedback |} in
  all_present customer_id product_id (Some 0%Z)
  = all_present customer_id product_id None
  /\ process (input (Some "learn_from_feedback") (Some 0%Z)) st
     = (Error "Missing required feedback data", st)
  /\ process (input (Some "learn_from_feedback") None) st
     = (Error "Missing required feedback data", st)
  /\ handle_feedback (input action (Some 0%Z)) st
     = (Error "Missing required feedback data", st)
  /\ handle_feedback (input action None) st
     = (Error "Missing required feedback data", st).
Proof.
  intros input.
  assert (H0 : all_present customer_id product_id (Some 0%Z) = false)
    by (unfold all_present; simpl; by rewrite andb_false_r).
  assert (HN : all_present customer_id product_id None = false)
    by (unfold all_present; simpl; by rewrite andb_false_r).
  split; [by rewrite H0, HN|].
  split; [unfold process; simpl; by rewrite H0|].
  split; [unfold process; simpl; by rewrite HN|].
  split; unfold handle_feedback; simpl; by rewrite ?H0, ?HN.
Qed.

(** * Further properties of the code *)

(** ** Agent memory: round trips and locality *)

Lemma get_agent_memory_store (agent key value : string) (st : State) :
  get_agent_memory agent key (db (store_memory agent key value st))
  = (get_agent_memory agent key (db st)
     ++ [ {| m_agent_type := agent;
             m_memory_key := key;
             m_memory_value := value |} ])%list.
Proof.
  unfold get_agent_memory, store_memory, store_agent_memory. cbn.
  destruct (negb (String.eqb key ""));
    rewrite List.filter_app; cbn; by rewrite !String.eqb_refl.
Qed.

Lemma get_agent_memory_store_other
    (agent key value agent' key' : string) (st : State) :
  agent' <> agent \/ (key' <> key /\ key' <> "") ->
  get_agent_memory agent' key' (db (store_memory agent key value st))
  = get_agent_memory agent' key' (db st).
Proof.
  intros H. unfold get_agent_memory, store_memory, store_agent_memory. cbn.
  destruct (String.eqb_spec key' "") as [->|Hk]; cbn;
    rewrite List.filter_app; cbn.
  - destruct H as [H|[_ H]]; [|done].
    destruct (String.eqb_spec agent agent'); [congruence|].
    by rewrite app_nil_r.
  - destruct (String.eqb_spec agent agent'); cbn.
    + destruct H as [H|[H _]]; [congruence|].
      destruct (String.eqb_spec key key'); [congruence|].
      by rewrite app_nil_r.
    + by rewrite app_nil_r.
Qed.

Lemma recall_memory_cold (agent key : string) (d : Database) :
  recall_memory agent key {| memory := ∅; db := d |}
  = match get_agent_memory agent key d with
    | row :: _ =>
        let v := default (Py.VStr (m_memory_value row))
                         (json_loads (m_memory_value row)) in
        (v, {| memory := {[ key := v ]}; db := d |})
    | [] => (Py.VNone, {| memory := ∅; db := d |})
    end.
Proof.
  unfold recall_memory. cbn. rewrite lookup_empty.
  destruct (get_agent_memory agent key d) as [|row rows]; [done|].
  cbn. by destruct (json_loads (m_memory_value row)).
Qed.

(** X1. What [store_memory] stores is what the same agent recalls next:
    the stored text itself, served from the cache.  Through the durable
    table alone (a fresh agent on the same database, the key not stored
    before) the text comes back through [json.loads]: unchanged if it is
    not a JSON document, decoded otherwise. *)
Theorem store_recall_round_trip (agent key value : string) (st : State) :
  recall_memory agent key (store_memory agent key value st)
  = (Py.VStr value, store_memory agent key value st)
  /\ (get_agent_memory agent key (db st) = [] ->
      (recall_memory agent key
         {| memory := ∅; db := db (store_memory agent key value st) |}).1
      = default (Py.VStr value) (json_loads value)).
Proof.
  split; [apply recall_store_memory|].
  intros Hnone. rewrite recall_memory_cold, get_agent_memory_store, Hnone.
  done.
Qed.

(** X2. The durable table is written by insertion only and read at its
    first matching row: once a key has a row, whatever is stored under
    it later, a fresh agent recalls the value of that first row. *)
Theorem durable_first_row_wins
    (agent key value : string) (st : State) (row : MemoryRow)
    (rows : list MemoryRow) :
  get_agent_memory agent key (db st) = row :: rows ->
  let st' := store_memory agent key value st in
  get_agent_memory agent key (db st')
  = (row :: rows ++ [ {| m_agent_type := agent;
                         m_memory_key := key;
                         m_memory_value := value |} ])%list
  /\ (recall_memory agent key {| memory := ∅; db := db st' |}).1
     = default (Py.VStr (m_memory_value row)) (json_loads (m_memory_value row))
  /\ (recall_memory agent key {| memory := ∅; db := db st' |}).1
     = (recall_memory agent key {| memory := ∅; db := db st |}).1.
Proof.
  intros Hrows st'. subst st'.
  rewrite !recall_memory_cold, get_agent_memory_store, Hrows. done.
Qed.

(** X3. [recall_memory] never writes to the database, changes no cache
    entry but the one recalled, prefers the cache to the database, and
    gives the same answer when repeated. *)
Theorem recall_memory_read_only (agent key : string) (st : State) :
  let out := recall_memory agent key st in
  db out.2 = db st
  /\ (forall k, k <> key -> memory out.2 !! k = memory st !! k)
  /\ (forall v, memory st !! key = Some v -> out = (v, st))
  /\ recall_memory agent key out.2 = out.
Proof.
  intros out. subst out.
  split; [apply recall_memory_db|].
  split; [|split; [intros v; apply recall_memory_cached
                  |apply recall_memory_again]].
  intros k Hk. unfold recall_memory.
  destruct (memory st !! key); [done|].
  destruct (get_agent_memory agent key (db st)); [done|].
  cbn. by rewrite lookup_insert_ne.
Qed.

(** X4. [store_memory] is local to its agent and key: what is recalled
    under another (non-empty) key does not change, and the rows another
    agent sees in the table do not change. *)
Theorem store_memory_local
    (agent key value agent' key' : string) (st : State) :
  (key' <> key -> key' <> "" ->
   (recall_memory agent' key' (store_memory agent key value st)).1
   = (recall_memory agent' key' st).1)
  /\ (agent' <> agent ->
      get_agent_memory agent' key' (db (store_memory agent key value st))
      = get_agent_memory agent' key' (db st)).
Proof.
  split.
  - intros Hk Hne. unfold recall_memory.
    rewrite get_agent_memory_store_other by (right; done).
    cbn [store_memory memory]. rewrite lookup_insert_ne by done.
    destruct (memory st !! key'); [done|].
    by destruct (get_agent_memory agent' key' (db st)).
  - intros Ha. apply get_agent_memory_store_other. by left.
Qed.

(** ** Engines: what every recommendation refers to *)

Lemma dict_update_elem (k : string) (f : Recommendation -> Recommendation)
    (d : list (string * Recommendation)) (k' : string) (v' : Recommendation) :
  (k', v') ∈ dict_update k f d ->
  (k', v') ∈ d \/ exists v, (k', v) ∈ d /\ v' = f v.
Proof.
  induction d as [|[k0 v0] d IH]; cbn; [by left|].
  destruct (String.eqb k0 k).
  - intros [[= -> ->]|Hin]%elem_of_cons.
    + right. exists v0. split; [apply list_elem_of_here|done].
    + left. by apply list_elem_of_further.
  - intros [[= -> ->]|Hin]%elem_of_cons.
    + left. apply list_elem_of_here.
    + destruct (IH Hin) as [H|(v & H & ->)].
      * left. by apply list_elem_of_further.
      * right. exists v. split; [by apply list_elem_of_further|done].
Qed.

Section MergeInvariant.
Variable P : Recommendation -> Prop.
Hypothesis P_set_score : forall r s, P r -> P (set_score r s).
Hypothesis P_set_reason : forall r s, P r -> P (set_reason r s).

Lemma add_weighted_keeps (w : Q) (b : bool)
    (d : list (string * Recommendation)) (rec : Recommendation) :
  (forall k v, (k, v) ∈ d -> P v) -> P rec ->
  forall k v, (k, v) ∈ add_weighted w b d rec -> P v.
Proof using P_set_score P_set_reason.
  intros Hd Hrec k v. unfold add_weighted.
  destruct (dict_get (r_product_id rec) d).
  - intros [Hin|(v0 & Hin & ->)]%dict_update_elem; [by eapply Hd|].
    apply Hd in Hin. destruct b; auto.
  - intros [Hin|[= -> ->]%list_elem_of_singleton]%elem_of_app;
      [by eapply Hd|auto].
Qed.

Lemma foldl_add_weighted_keeps (w : Q) (b : bool) (l : list Recommendation)
    (d : list (string * Recommendation)) :
  (forall k v, (k, v) ∈ d -> P v) -> (forall r, r ∈ l -> P r) ->
  forall k v, (k, v) ∈ foldl (add_weighted w b) d l -> P v.
Proof using P_set_score P_set_reason.
  revert d. induction l as [|rec l IH]; intros d Hd Hl; [exact Hd|].
  cbn [foldl]. apply IH.
  - apply add_weighted_keeps; [exact Hd|]. apply Hl, list_elem_of_here.
  - intros r Hr. by apply Hl, list_elem_of_further.
Qed.

End MergeInvariant.

Lemma sorted_desc_of_sorted {A} (key : A -> Q) (l : list A) :
  StronglySorted (desc key) l -> Py.sorted_desc key l = l.
Proof.
  induction l as [|x l IH]; [done|].
  intros [Hx Hl]%StronglySorted_cons.
  cbn [Py.sorted_desc foldr]. fold (Py.sorted_desc key l).
  rewrite (IH Hl). destruct l as [|y l]; [done|].
  cbn [Py.insert_desc].
  apply Forall_cons_1 in Hx as [Hy _]. unfold desc in Hy.
  apply Qle_bool_iff in Hy. by rewrite Hy.
Qed.

Lemma engines_describe_candidates (c : CustomerData) (pd : ProductData)
    (r : Recommendation) :
  r ∈ _collaborative_filtering_strategy c pd
  \/ r ∈ _content_based_strategy c pd
  \/ r ∈ _popularity_based_strategy c pd
  \/ r ∈ _hybrid_strategy c pd ->
  from_candidate pd r.
Proof.
  assert (Hc : forall r, r ∈ _collaborative_filtering_strategy c pd ->
                         from_candidate pd r).
  { intros r' (p & Hp & ->)%collaborative_elem. by exists p. }
  assert (Ht : forall r, r ∈ _content_based_strategy c pd ->
                         from_candidate pd r).
  { intros r' (p & Hp & ->)%content_elem. by exists p. }
  assert (Hp : forall r, r ∈ _popularity_based_strategy c pd ->
                         from_candidate pd r).
  { intros r' (p & Hp & ->)%popularity_elem. by exists p. }
  intros [H|[H|[H|Hr%hybrid_elem_merged]]]; [by apply Hc|by apply Ht|by apply Hp|].
  apply list_elem_of_fmap in Hr as ([k v] & -> & Hin). cbn.
  revert k v Hin. unfold hybrid_all_recs.
  apply foldl_add_weighted_keeps; [done|done| |exact Hp].
  apply foldl_add_weighted_keeps; [done|done| |exact Ht].
  apply foldl_add_weighted_keeps; [done|done| |exact Hc].
  intros k v Hin. by apply elem_of_nil in Hin.
Qed.

Lemma engines_at_most_ten (c : CustomerData) (pd : ProductData) :
  (length (_collaborative_filtering_strategy c pd) <= 10)%nat
  /\ (length (_content_based_strategy c pd) <= 10)%nat
  /\ (length (_popularity_based_strategy c pd) <= 10)%nat
  /\ (length (_hybrid_strategy c pd) <= 10)%nat.
Proof.
  rewrite collaborative_unfold, content_unfold, popularity_unfold.
  unfold _hybrid_strategy. rewrite !length_map, !length_take. lia.
Qed.

(** X5. Whatever the candidates, each engine returns at most ten
    recommendations, and every recommendation carries the id, category
    and price of one of the candidates. *)
Theorem recommendations_describe_candidates
    (c : CustomerData) (pd : ProductData) :
  ((length (_collaborative_filtering_strategy c pd) <= 10)%nat
   /\ Forall (from_candidate pd) (_collaborative_filtering_strategy c pd))
  /\ ((length (_content_based_strategy c pd) <= 10)%nat
      /\ Forall (from_candidate pd) (_content_based_strategy c pd))
  /\ ((length (_popularity_based_strategy c pd) <= 10)%nat
      /\ Forall (from_candidate pd) (_popularity_based_strategy c pd))
  /\ ((length (_hybrid_strategy c pd) <= 10)%nat
      /\ Forall (from_candidate pd) (_hybrid_strategy c pd)).
Proof.
  destruct (engines_at_most_ten c pd) as (H1 & H2 & H3 & H4).
  repeat split; try done; apply Forall_forall; intros r Hr;
    apply (engines_describe_candidates c); auto.
Qed.

(** ** Product agent *)

Lemma find_relevant_products_products
    (table : list Product) (cats : list string) (c : CustomerData) :
  available_products (response_product_data (_find_relevant_products table cats c))
  = Py.sorted_desc get_relevance_score
      (_filter_products_for_customer (products_of_categories table cats) c).
Proof.
  unfold _find_relevant_products, products_of_categories.
  destruct cats as [|cat cats]; [done|].
  by destruct (flat_map _ (cat :: cats)).
Qed.

(** X6. The product agent hands over its products ranked by relevance,
    and the collaborative engine's own (stable) sort then changes
    nothing: on the product agent's answer it returns the first ten
    products in the order given. *)
Theorem collaborative_follows_product_ranking
    (table : list Product) (cats : list string) (c0 c : CustomerData) :
  let pd := response_product_data (_find_relevant_products table cats c0) in
  _collaborative_filtering_strategy c pd
  = map (collaborative_rec (c_customer_segment c))
        (take 10 (available_products pd)).
Proof.
  intros pd. subst pd. rewrite collaborative_unfold.
  rewrite sorted_desc_of_sorted; [done|].
  rewrite find_relevant_products_products. apply sorted_desc_sorted.
Qed.

Lemma category_distribution_lookup (products : list Product)
    (d : gmap string nat) (category : string) :
  foldl (fun distribution product =>
           <[p_category product
             := (default 0 (distribution !! p_category product) + 1)%nat]>
             distribution)
        d products !! category
  = let n := length (get_products_by_category category products) in
    if (n =? 0)%nat then d !! category
    else Some (default 0 (d !! category) + n)%nat.
Proof.
  revert d. induction products as [|p ps IH]; intros d; [done|].
  cbn [foldl]. rewrite IH. unfold get_products_by_category.
  cbn [List.filter].
  destruct (String.eqb_spec (p_category p) category) as [->|Hne].
  - rewrite lookup_insert_eq. cbn.
    destruct (length _ =? 0)%nat eqn:E.
    + apply Nat.eqb_eq in E. rewrite E. f_equal; lia.
    + f_equal; lia.
  - by rewrite lookup_insert_ne.
Qed.

Lemma total_of_increment (d : gmap string nat) (k : string) :
  total_of (<[k := (default 0 (d !! k) + 1)%nat]> d) = S (total_of d).
Proof.
  unfold total_of.
  assert (Hcomm : forall (m : gmap string nat) (j1 j2 : string) (z1 z2 y : nat),
             j1 <> j2 -> m !! j1 = Some z1 -> m !! j2 = Some z2 ->
             (z1 + (z2 + y) = z2 + (z1 + y))%nat) by (intros; lia).
  destruct (d !! k) as [n|] eqn:E; cbn.
  - rewrite <- (insert_delete_eq d k (n + 1)%nat).
    rewrite map_fold_insert_L;
      [|intros; lia|apply lookup_delete_eq].
    rewrite <- (insert_delete_id d k n E) at 2.
    rewrite map_fold_insert_L;
      [|intros; lia|apply lookup_delete_eq].
    lia.
  - rewrite map_fold_insert_L; [lia|intros; lia|done].
Qed.

Lemma total_of_foldl (products : list Product) (d : gmap string nat) :
  total_of
    (foldl (fun distribution product =>
              <[p_category product
                := (default 0 (distribution !! p_category product) + 1)%nat]>
                distribution)
           d products)
  = (total_of d + length products)%nat.
Proof.
  revert d. induction products as [|p ps IH]; intros d; cbn [foldl length].
  - lia.
  - rewrite IH, total_of_increment. lia.
Qed.

Lemma category_distribution_total (products : list Product) :
  total_of (_get_category_distribution products) = length products.
Proof.
  unfold _get_category_distribution. rewrite total_of_foldl.
  unfold total_of. by rewrite map_fold_empty.
Qed.

(** X7. The category distribution records, for each category, the number
    of products of that category, has no entry for a category without
    products, and its counts add up to the number of products. *)
Theorem category_distribution_counts (products : list Product) :
  (forall category,
     _get_category_distribution products !! category
     = let n := length (get_products_by_category category products) in
       if (n =? 0)%nat then None else Some n)
  /\ total_of (_get_category_distribution products) = length products.
Proof.
  split.
  - intros category. unfold _get_category_distribution.
    rewrite category_distribution_lookup. cbn. by rewrite lookup_empty.
  - apply category_distribution_total.
Qed.

Lemma filter_products_ids (products : list Product) (c : CustomerData) :
  map p_product_id (_filter_products_for_customer products c)
  = map p_product_id products.
Proof.
  unfold _filter_products_for_customer. rewrite map_map. done.
Qed.

Lemma get_products_by_category_elem (table : list Product)
    (category : string) (p : Product) :
  p ∈ get_products_by_category category table
  <-> p ∈ table /\ p_category p = category.
Proof.
  unfold get_products_by_category.
  rewrite !list_elem_of_In, filter_In. by rewrite String.eqb_eq.
Qed.

Lemma products_of_categories_elem (table : list Product)
    (cats : list string) (p : Product) :
  p ∈ products_of_categories table cats <-> p ∈ table /\ p_category p ∈ cats.
Proof.
  unfold products_of_categories, get_products_by_category.
  rewrite list_elem_of_In, in_flat_map. split.
  - intros (cat & Hcat & Hp). apply filter_In in Hp as [Hp Heq].
    apply String.eqb_eq in Heq. subst cat.
    by rewrite !list_elem_of_In.
  - intros [Hp Hcat]. exists (p_category p).
    rewrite filter_In, String.eqb_refl, <- !list_elem_of_In. done.
Qed.

Lemma relevant_products_elem
    (table : list Product) (cats : list string) (c : CustomerData) (p : Product) :
  p ∈ available_products
        (response_product_data (_find_relevant_products table cats c)) ->
  exists row, row ∈ table /\ p_category row ∈ cats
              /\ p = with_relevance_score row (relevance_score c row).
Proof.
  rewrite find_relevant_products_products. intros Hp.
  apply sorted_desc_elem_of in Hp.
  unfold _filter_products_for_customer in Hp.
  apply list_elem_of_fmap in Hp as (row & -> & Hrow).
  apply products_of_categories_elem in Hrow as [Hrow Hcat].
  by exists row.
Qed.


Lemma NoDup_map_inj_on {A B} (f : A -> B) (l : list A) (x y : A) :
  NoDup (map f l) -> x ∈ l -> y ∈ l -> f x = f y -> x = y.
Proof.
  induction l as [|a l IH]; cbn; intros Hnd Hx Hy Hf.
  - by apply elem_of_nil in Hx.
  - apply NoDup_cons in Hnd as [Ha Hnd].
    apply elem_of_cons in Hx as [->|Hx]; apply elem_of_cons in Hy as [->|Hy].
    + done.
    + exfalso. apply Ha. rewrite Hf. by apply list_elem_of_fmap_2.
    + exfalso. apply Ha. rewrite <- Hf. by apply list_elem_of_fmap_2.
    + by apply IH.
Qed.

Lemma NoDup_map_filter {A B} (f : A -> B) (g : A -> bool) (l : list A) :
  NoDup (map f l) -> NoDup (map f (List.filter g l)).
Proof.
  induction l as [|a l IH]; cbn; [done|].
  intros [Ha Hl]%NoDup_cons. destruct (g a); cbn; [|by apply IH].
  apply NoDup_cons. split; [|by apply IH].
  intros (x & Hx & Hin)%list_elem_of_fmap. apply Ha.
  rewrite Hx. apply list_elem_of_fmap_2.
  apply list_elem_of_In. apply list_elem_of_In, filter_In in Hin. tauto.
Qed.

Lemma products_of_categories_NoDup (table : list Product) (cats : list string) :
  NoDup (map p_product_id table) -> NoDup cats ->
  NoDup (map p_product_id (products_of_categories table cats)).
Proof.
  intros Htable. induction cats as [|cat cats IH]; intros Hcats; [constructor|].
  apply NoDup_cons in Hcats as [Hcat Hcats].
  change (products_of_categories table (cat :: cats))
    with (get_products_by_category cat table
          ++ products_of_categories table cats)%list.
  rewrite map_app. apply NoDup_app. split; [|split; [|by apply IH]].
  - by apply NoDup_map_filter.
  - intros k Hk Hk'.
    apply list_elem_of_fmap in Hk as (p & -> & Hp).
    apply list_elem_of_fmap in Hk' as (q & Hpq & Hq).
    apply get_products_by_category_elem in Hp as [Hp Hpc].
    apply products_of_categories_elem in Hq as [Hq Hqc].
    pose proof (NoDup_map_inj_on _ _ _ _ Htable Hp Hq Hpq) as ->.
    apply Hcat. by rewrite <- Hpc.
Qed.

(** X9. If the [products] table has distinct ids (its primary key) and
    no category is requested twice, the products handed to the
    recommendation agent have pairwise distinct ids. *)
Theorem relevant_products_distinct
    (table : list Product) (cats : list string) (c : CustomerData) :
  NoDup (map p_product_id table) -> NoDup cats ->
  NoDup (map p_product_id
           (available_products
              (response_product_data (_find_relevant_products table cats c)))).
Proof.
  intros Htable Hcats. rewrite find_relevant_products_products.
  rewrite (sorted_desc_perm get_relevance_score), filter_products_ids.
  by apply products_of_categories_NoDup.
Qed.

(** ** Recommendation agent: persistence, errors, feedback *)

Lemma foldl_add_recommendation (customer_id : string)
    (recs : list Recommendation) (d : Database) :
  foldl (fun d rec =>
           add_recommendation customer_id (r_product_id rec)
                              (r_score rec) (r_reason rec) d)
        d recs
  = {| agent_memory := agent_memory d;
       recommendations :=
         recommendations d ++ map (recommendation_row customer_id) recs |}.
Proof.
  revert d. induction recs as [|r recs IH]; intros d; cbn [foldl map].
  - rewrite app_nil_r. by destruct d.
  - rewrite IH. unfold add_recommendation at 1 2. cbn.
    by rewrite <- app_assoc.
Qed.

(** X10. When the strategy value is hashable and generating
    recommendations answers (no [INSERT] having raised), the answer
    carries the strategy as given and the recommendations of the engine
    registered under that name, the hybrid engine standing in for any
    other value; exactly one row per recommendation, in order and with
    feedback 0, has been appended to the [recommendations] table, and
    earlier rows, the [agent_memory] table and the agent's memory are
    as they were. *)
Theorem generate_recommendations_persists
    (c : CustomerData) (pd : ProductData) (strategy : Py.value) (st : State)
    (recs : list Recommendation) (answered : Py.value) (explanation : string) :
  Py.hashable strategy = true ->
  (_generate_recommendations c pd strategy st).1
  = Recommendations recs answered explanation ->
  let st' := (_generate_recommendations c pd strategy st).2 in
  answered = strategy
  /\ recommendations (db st')
     = (recommendations (db st)
        ++ map (recommendation_row (c_customer_id c)) recs)%list
  /\ agent_memory (db st') = agent_memory (db st)
  /\ memory st' = memory st
  /\ (strategy = Py.VStr "collaborative_filtering" ->
      recs = _collaborative_filtering_strategy c pd)
  /\ (strategy = Py.VStr "content_based" ->
      recs = _content_based_strategy c pd)
  /\ (strategy = Py.VStr "popularity_based" ->
      recs = _popularity_based_strategy c pd)
  /\ ((forall s, s ∈ ["collaborative_filtering"; "content_based";
                        "popularity_based"] -> strategy <> Py.VStr s) ->
      recs = _hybrid_strategy c pd).
Proof.
  intros _ Hanswer st'. subst st'. revert Hanswer.
  unfold _generate_recommendations. cbn [fst snd db memory].
  rewrite foldl_add_recommendation. cbn.
  intros [= <- <- _].
  split; [done|]. split; [done|]. split; [done|]. split; [done|].
  split; [by intros ->|]. split; [by intros ->|]. split; [by intros ->|].
  intros Hother. unfold strategy_fn.
  destruct strategy as [| | | |s| |]; try done. cbn.
  destruct (String.eqb_spec s "collaborative_filtering") as [->|_].
  { exfalso. apply (Hother "collaborative_filtering"); [|done].
    repeat first [apply list_elem_of_here|apply list_elem_of_further]. }
  destruct (String.eqb_spec s "content_based") as [->|_].
  { exfalso. apply (Hother "content_based"); [|done].
    repeat first [apply list_elem_of_here|apply list_elem_of_further]. }
  destruct (String.eqb_spec s "popularity_based") as [->|_]; [|done].
  exfalso. apply (Hother "popularity_based"); [|done].
  repeat first [apply list_elem_of_here|apply list_elem_of_further].
Qed.

Lemma learn_never_error (customer_id product_id : string) (feedback : Z)
    (st : State) (msg : string) :
  (_learn_from_feedback customer_id product_id feedback st).1 <> Error msg.
Proof.
  unfold _learn_from_feedback.
  destruct (recall_memory _ _ st) as [v st'].
  by destruct ((feedback <? 0)%Z && Py.truthy v).
Qed.

(** X11. When [RecommendationAgent.process] answers with an error it has
    changed nothing, and the error is one of three: no customer data for
    a generation request, incomplete feedback data for a feedback
    request, or an action that is neither of the two. *)
Theorem process_error_changes_nothing
    (input_data : InputData) (st : State) (msg : string) :
  (process input_data st).1 = Error msg ->
  (process input_data st).2 = st
  /\ let action := default "generate_recommendations" (i_action input_data) in
     (action = "generate_recommendations"
      /\ i_customer_data input_data = None
      /\ msg = "Customer data is required")
     \/ (action = "learn_from_feedback"
         /\ all_present (i_customer_id input_data) (i_product_id input_data)
                        (i_feedback input_data) = false
         /\ msg = "Missing required feedback data")
     \/ (action <> "generate_recommendations"
         /\ action <> "learn_from_feedback"
         /\ msg = "Unknown action: " ++ action).
Proof.
  unfold process. cbv zeta.
  destruct (String.eqb_spec (default "generate_recommendations"
                               (i_action input_data))
                            "generate_recommendations") as [Ha|Ha].
  - destruct (i_customer_data input_data) as [c|].
    + destruct (_select_recommendation_strategy c st) as [strategy st'].
      unfold _generate_recommendations. cbn. discriminate.
    + cbn. intros [= <-]. split; [done|]. by left.
  - destruct (String.eqb_spec (default "generate_recommendations"
                                 (i_action input_data))
                              "learn_from_feedback") as [Hl|Hl].
    + destruct (all_present _ _ _) eqn:Hall; cbn.
      * intros H. by apply learn_never_error in H.
      * intros [= <-]. split; [done|]. right. by left.
    + cbn. intros [= <-]. split; [done|]. right. by right.
Qed.

Lemma learn_recommendations (customer_id product_id : string) (feedback : Z)
    (st : State) :
  recommendations (db (_learn_from_feedback customer_id product_id feedback st).2)
  = recommendations (db st).
Proof.
  unfold _learn_from_feedback. cbv zeta.
  pose proof (recall_memory_db agent_name (strategy_key customer_id) st) as Hdb.
  destruct (recall_memory _ _ st) as [v st']. cbn in Hdb.
  destruct ((feedback <? 0)%Z && Py.truthy v); cbn; by rewrite Hdb.
Qed.

Lemma update_feedback_applied (feedback : Z) (customer_id product_id : string)
    (d : Database) :
  Forall2 (feedback_applied feedback customer_id product_id)
          (recommendations d)
          (recommendations (update_feedback feedback customer_id product_id d)).
Proof.
  unfold update_feedback. cbn.
  induction (recommendations d) as [|row rows IH]; constructor; [|exact IH].
  unfold feedback_applied.
  destruct (String.eqb_spec (rr_customer_id row) customer_id) as [Hc|Hc];
    destruct (String.eqb_spec (rr_product_id row) product_id) as [Hp|Hp]; cbn.
  - by rewrite bool_decide_eq_true_2.
  - rewrite bool_decide_eq_false_2; [done|]. by intros [_ ?].
  - rewrite bool_decide_eq_false_2; [done|]. by intros [? _].
  - rewrite bool_decide_eq_false_2; [done|]. by intros [? _].
Qed.

Lemma update_feedback_no_match (feedback : Z) (customer_id product_id : string)
    (d : Database) :
  (forall row, row ∈ recommendations d ->
               ~ (rr_customer_id row = customer_id
                  /\ rr_product_id row = product_id)) ->
  recommendations (update_feedback feedback customer_id product_id d)
  = recommendations d.
Proof.
  unfold update_feedback. cbn.
  induction (recommendations d) as [|row rows IH]; intros H; [done|].
  cbn. rewrite IH by (intros r Hr; by apply H, list_elem_of_further).
  destruct (String.eqb_spec (rr_customer_id row) customer_id) as [Hc|Hc];
    destruct (String.eqb_spec (rr_product_id row) product_id) as [Hp|Hp];
    cbn; try done.
  exfalso. by apply (H row); [apply list_elem_of_here|].
Qed.

(** X12. With a customer id, a product id and a non-zero feedback that
    fits SQLite's 64-bit integers, [handle_feedback] answers
    "feedback_recorded" and sets the feedback of every recommendation
    row of that customer and product; no row is added or removed and no
    other column or row changes.  If no row matches, the table stays as
    it was and the answer is the same. *)
Theorem handle_feedback_records
    (action : option string) (customer_data : option CustomerData)
    (product_data : option ProductData)
    (customer_id product_id : string) (feedback : Z) (st : State) :
  customer_id <> "" -> product_id <> "" -> feedback <> 0%Z ->
  sqlite_integer feedback ->
  let out :=
    handle_feedback {| i_action := action;
                       i_customer_data := customer_data;
                       i_product_data := product_data;
                       i_customer_id := Some customer_id;
                       i_product_id := Some product_id;
                       i_feedback := Some feedback |} st in
  out.1 = CoordinatorFeedbackRecorded
  /\ Forall2 (feedback_applied feedback customer_id product_id)
             (recommendations (db st)) (recommendations (db out.2))
  /\ ((forall row, row ∈ recommendations (db st) ->
                   ~ (rr_customer_id row = customer_id
                      /\ rr_product_id row = product_id)) ->
      recommendations (db out.2) = recommendations (db st)).
Proof.
  intros Hc Hp Hf _ out. subst out.
  assert (Hall : all_present (Some customer_id) (Some product_id)
                             (Some feedback) = true).
  { unfold all_present. cbn.
    destruct (String.eqb_spec customer_id ""); [done|].
    destruct (String.eqb_spec product_id ""); [done|].
    destruct (Z.eqb_spec feedback 0); done. }
  unfold handle_feedback. cbn [i_customer_id i_product_id i_feedback].
  rewrite Hall. cbn [negb]. unfold process. cbn.
  rewrite Hall. cbn [negb].
  match goal with
  | |- context [_learn_from_feedback customer_id product_id feedback ?s] =>
      pose proof (learn_recommendations customer_id product_id feedback s) as Hl;
      destruct (_learn_from_feedback customer_id product_id feedback s)
        as [resp st']
  end.
  cbn in Hl |- *. rewrite Hl.
  split; [done|].
  split; [apply update_feedback_applied|apply update_feedback_no_match].
Qed.

Lemma next_index_strategy (i : nat) :
  nth ((i + 1) mod length strategies) strategies "" ∈ strategies.
Proof.
  pose proof (Nat.mod_upper_bound (i + 1) (length strategies)) as Hlt.
  destruct ((i + 1) mod length strategies)%nat as [|[|[|[|n]]]];
    [unfold strategies; cbn;
     repeat first [apply list_elem_of_here|apply list_elem_of_further]..|].
  cbn in Hlt. lia.
Qed.

(** X13. Selecting a strategy and learning from feedback never touch the
    [recommendations] table, and write to the [agent_memory] table by
    appending at most one row, whose value is one of the four strategy
    names stored under the customer's preference key. *)
Theorem preference_writes_append_only
    (c : CustomerData) (customer_id product_id : string) (feedback : Z)
    (st : State) :
  preference_write (strategy_key (c_customer_id c)) st
                   (_select_recommendation_strategy c st).2
  /\ preference_write (strategy_key customer_id) st
                      (_learn_from_feedback customer_id product_id feedback st).2.
Proof.
  unfold preference_write. split.
  - pose proof (recall_memory_db agent_name (strategy_key (c_customer_id c)) st)
      as Hdb.
    destruct (recall_memory agent_name (strategy_key (c_customer_id c)) st)
      as [v st'] eqn:Hr. cbn in Hdb.
    destruct (Py.truthy v) eqn:Ht.
    + rewrite (select_stored c st st' v Hr Ht). cbn. rewrite Hdb.
      split; [done|by left].
    + rewrite (select_default c st st' v Hr Ht). cbn. rewrite Hdb.
      split; [done|]. right. exists (default_policy c).
      split; [apply default_policy_strategy|done].
  - unfold _learn_from_feedback. cbv zeta.
    pose proof (recall_memory_db agent_name (strategy_key customer_id) st)
      as Hdb.
    destruct (recall_memory agent_name (strategy_key customer_id) st)
      as [v st']. cbn in Hdb.
    destruct ((feedback <? 0)%Z && Py.truthy v); cbn; rewrite Hdb.
    + split; [done|]. right. eexists. split; [apply next_index_strategy|done].
    + split; [done|by left].
Qed.

Lemma next_in_cycle_strategy (s : string) :
  s ∈ strategies -> next_in_cycle s ∈ strategies.
Proof.
  intros H. unfold strategies in *. rewrite !elem_of_cons, elem_of_nil in H.
  destruct H as [->|[->|[->|[->|[]]]]]; cbn;
    repeat first [apply list_elem_of_here|apply list_elem_of_further].
Qed.

Lemma learn_negative_state (customer_id product_id : string) (feedback : Z)
    (st st1 : State) (cur : string) :
  recall_memory agent_name (strategy_key customer_id) st = (Py.VStr cur, st1) ->
  cur ∈ strategies -> (feedback < 0)%Z ->
  (_learn_from_feedback customer_id product_id feedback st).2
  = store_memory agent_name (strategy_key customer_id) (next_in_cycle cur) st1.
Proof.
  intros Hr Hcur Hneg. unfold _learn_from_feedback. cbv zeta. rewrite Hr.
  rewrite (strategy_truthy cur Hcur).
  destruct (Z.ltb_spec feedback 0); [|lia].
  cbn [andb snd]. by rewrite (rotation_code cur Hcur).
Qed.

(** X14. Negative feedback walks the cycle one step at a time: after [n]
    negative feedbacks for a customer whose preference was [cur], the
    preference is [cur] moved [n] steps along the cycle, so every fourth
    dislike brings it back to where it was. *)
Theorem negative_feedback_walks_cycle
    (customer_id product_id : string) (feedback : Z) (n : nat)
    (st st1 : State) (cur : string) :
  recall_memory agent_name (strategy_key customer_id) st = (Py.VStr cur, st1) ->
  cur ∈ strategies -> (feedback < 0)%Z ->
  let after :=
    Nat.iter n (fun st =>
                  (_learn_from_feedback customer_id product_id feedback st).2)
             st in
  (recall_memory agent_name (strategy_key customer_id) after).1
  = Py.VStr (Nat.iter n next_in_cycle cur)
  /\ Nat.iter (n + 4) next_in_cycle cur = Nat.iter n next_in_cycle cur.
Proof.
  intros Hr Hcur Hneg after. subst after. split.
  - assert (H : exists st',
               recall_memory agent_name (strategy_key customer_id)
                 (Nat.iter n
                    (fun st => (_learn_from_feedback customer_id product_id
                                  feedback st).2) st)
               = (Py.VStr (Nat.iter n next_in_cycle cur), st')
               /\ Nat.iter n next_in_cycle cur ∈ strategies).
    { induction n as [|n IH]; [by exists st1|].
      destruct IH as (st' & Hr' & Hin). cbn [Nat.iter nat_rect].
      fold (Nat.iter n (fun st => (_learn_from_feedback customer_id product_id
                                     feedback st).2) st).
      fold (Nat.iter n next_in_cycle cur).
      rewrite (learn_negative_state _ _ _ _ _ _ Hr' Hin Hneg).
      eexists. split; [apply recall_store_memory|].
      by apply next_in_cycle_strategy. }
    destruct H as (st' & -> & _). done.
  - rewrite Nat.add_comm. cbn [Nat.add Nat.iter nat_rect].
    fold (Nat.iter n next_in_cycle cur).
    assert (Hin : Nat.iter n next_in_cycle cur ∈ strategies).
    { induction n as [|n IH]; [done|]. by apply next_in_cycle_strategy. }
    revert Hin. generalize (Nat.iter n next_in_cycle cur). intros s.
    unfold strategies. rewrite !elem_of_cons, elem_of_nil.
    intros [->|[->|[->|[->|[]]]]]; done.
Qed.

Lemma index_of_other (v : Py.value) (l : list string) :
  (forall s, s ∈ l -> v <> Py.VStr s) -> index_of v l = None.
Proof.
  induction l as [|s l IH]; intros H; [done|]. cbn.
  assert (Py.eq_str v s = false) as ->.
  { destruct v as [| | | |s'| |]; try done. cbn.
    destruct (String.eqb_spec s' s) as [->|]; [|done].
    exfalso. by apply (H s); [apply list_elem_of_here|]. }
  rewrite IH; [done|]. intros s' Hs'. by apply H, list_elem_of_further.
Qed.

(** X15. A stored preference that is true but is not one of the four
    strategy names is treated as if it were the first of them: a
    negative feedback replaces it by the second, content_based. *)
Theorem unrecognised_preference_moves_to_content_based
    (customer_id product_id : string) (feedback : Z) (st st1 : State)
    (v : Py.value) :
  recall_memory agent_name (strategy_key customer_id) st = (v, st1) ->
  Py.truthy v = true ->
  (forall s, s ∈ strategies -> v <> Py.VStr s) ->
  (feedback < 0)%Z ->
  _learn_from_feedback customer_id product_id feedback st
  = (LearnedFromFeedback v "content_based",
     store_memory agent_name (strategy_key customer_id) "content_based" st1).
Proof.
  intros Hr Ht Hv Hneg. unfold _learn_from_feedback. cbv zeta.
  rewrite Hr, Ht. destruct (Z.ltb_spec feedback 0); [|lia].
  cbn [andb]. by rewrite (index_of_other v strategies Hv).
Qed.

(** ** Relevance scorer without an order value *)

Lemma float_zero (q : Q) : q == 0 -> Py.float q = SpecFloat.S754_zero false.
Proof.
  destruct q as [n d]. unfold Qeq. cbn. intros H.
  assert (n = 0%Z) as -> by lia. done.
Qed.

Lemma price_factor_float (price_sensitivity : string) :
  exists m e,
    Py.float (price_factor price_sensitivity)
    = SpecFloat.S754_finite false m e.
Proof.
  unfold price_factor.
  destruct (String.eqb price_sensitivity "low"); [by eexists _, _|].
  destruct (String.eqb price_sensitivity "medium"); [by eexists _, _|].
  destruct (String.eqb price_sensitivity "high"); by eexists _, _.
Qed.

Lemma le_product_no_order_value
    (price avg_order_value : Q) (price_sensitivity : string) :
  avg_order_value == 0 ->
  le_product price avg_order_value (price_factor price_sensitivity)
  = at_most price 0.
Proof.
  intros H. unfold le_product, at_most. rewrite (float_zero _ H).
  destruct (price_factor_float price_sensitivity) as (m & e & ->). done.
Qed.

(** A positive number reads as a positive double unless it is so small
    that it rounds to 0.0. *)
Lemma float_positive (q : Q) :
  0 < q -> Py.float q <> SpecFloat.S754_zero false -> at_most q 0 = false.
Proof.
  destruct q as [n d]. unfold Qlt, at_most, Py.float_le. cbn [Qnum Qden].
  intros Hpos. assert (0 < n)%Z as Hn by lia.
  destruct n as [|n|n]; [lia| |lia].
  unfold Py.float. cbn [Qnum Qden].
  unfold SpecFloat.SFdiv.
  destruct (SpecFloat.SFdiv_core_binary _ _ _ _ _ _) as [[mz ez] lz].
  unfold SpecFloat.binary_round_aux.
  destruct (SpecFloat.shr_fexp _ _ mz ez lz) as [mrs e1].
  destruct (SpecFloat.shr_fexp _ _ _ e1 _) as [mrs' e2].
  destruct (SpecFloat.shr_m mrs') as [|m|m]; [done| |done].
  by destruct (e2 <=? 1024 - 53)%Z.
Qed.

(** X16. When [avg_order_value] is 0, which is what a [customer_data]
    without that key yields, the price sensitivity plays no part in the
    relevance of any product: the product [avg_order_value *
    price_factor] is 0.0 whatever the factor, so the price adjustment
    is +0.10 for a price that is at most 0.0 as a double and -0.10
    for every other, every positive price that does not round to 0.0
    among them. *)
Theorem price_sensitivity_needs_order_value
    (c c' : CustomerData) (p : Product) :
  c_location c = c_location c' ->
  c_season c = c_season c' ->
  c_holiday_shopping c = c_holiday_shopping c' ->
  c_avg_order_value c == 0 ->
  c_avg_order_value c' == 0 ->
  relevance_score c p = relevance_score c' p
  /\ relevance_score c p
     == clamp01 (default 0.5 (p_recommendation_probability p)
                 + location_adjustment c p + season_adjustment c p
                 + holiday_adjustment c p
                 + (if at_most (p_price p) 0 then 0.10 else - 0.10)
                 + rating_adjustment p + sentiment_adjustment p)
  /\ (0 < p_price p ->
      Py.float (p_price p) <> SpecFloat.S754_zero false ->
      relevance_score c p
      == clamp01 (default 0.5 (p_recommendation_probability p)
                  + location_adjustment c p + season_adjustment c p
                  + holiday_adjustment c p - 0.10
                  + rating_adjustment p + sentiment_adjustment p)).
Proof.
  intros Hl Hs Hh Ha Ha'.
  assert (Hsum : relevance_score c p
                 == clamp01 (default 0.5 (p_recommendation_probability p)
                             + location_adjustment c p + season_adjustment c p
                             + holiday_adjustment c p
                             + (if at_most (p_price p) 0 then 0.10 else - 0.10)
                             + rating_adjustment p + sentiment_adjustment p)).
  { rewrite relevance_score_sum. apply clamp01_proper.
    unfold relevance_sum, price_adjustment.
    by rewrite (le_product_no_order_value _ _ _ Ha). }
  split; [|split; [exact Hsum|]];
    [|intros Hpos Hfloat; rewrite Hsum, (float_positive _ Hpos Hfloat);
      apply clamp01_proper; ring].
  - unfold relevance_score.
    change (Py.float_le (Py.float (p_price p))
              (Py.float_mul (Py.float (c_avg_order_value c))
                 (Py.float (price_factor (c_price_sensitivity c)))))
      with (le_product (p_price p) (c_avg_order_value c)
              (price_factor (c_price_sensitivity c))).
    change (Py.float_le (Py.float (p_price p))
              (Py.float_mul (Py.float (c_avg_order_value c'))
                 (Py.float (price_factor (c_price_sensitivity c')))))
      with (le_product (p_price p) (c_avg_order_value c')
              (price_factor (c_price_sensitivity c'))).
    by rewrite Hl, Hs, Hh, (le_product_no_order_value _ _ _ Ha),
      (le_product_no_order_value _ _ _ Ha').
Qed.

(** ** Coordinator *)

Lemma strategy_fn_no_products (strategy : Py.value) (c : CustomerData) :
  strategy_fn strategy c {| pd_products := Some [] |} = [].
Proof.
  unfold strategy_fn.
  destruct (Py.eq_str strategy "collaborative_filtering"); [done|].
  destruct (Py.eq_str strategy "content_based"); [done|].
  by destruct (Py.eq_str strategy "popularity_based").
Qed.

Lemma select_recommendations_table (c : CustomerData) (st : State) :
  recommendations (db (_select_recommendation_strategy c st).2)
  = recommendations (db st).
Proof.
  pose proof (recall_memory_db agent_name (strategy_key (c_customer_id c)) st)
    as Hdb.
  destruct (recall_memory agent_name (strategy_key (c_customer_id c)) st)
    as [v st'] eqn:Hr. cbn in Hdb.
  destruct (Py.truthy v) eqn:Ht.
  - rewrite (select_stored c st st' v Hr Ht). cbn. by rewrite Hdb.
  - rewrite (select_default c st st' v Hr Ht). cbn. by rewrite Hdb.
Qed.

(** X17. The coordinator reports an error in one case only, a missing or
    empty customer id, and then changes nothing; for every other request
    it answers with a result. *)
Theorem coordinator_error_only_without_id
    (customer_id : option string) (sys : System) :
  (customer_id = None \/ customer_id = Some "" ->
   coordinator_process customer_id sys
   = (CoordinatorError "Customer ID is required", sys))
  /\ (forall msg,
        (coordinator_process customer_id sys).1 = CoordinatorError msg ->
        customer_id = None \/ customer_id = Some "").
Proof.
  split.
  - by intros [->| ->].
  - intros msg. destruct customer_id as [cid|]; [|by left].
    destruct (String.eqb_spec cid "") as [->|Hne]; [by right|].
    unfold coordinator_process. cbn.
    destruct (String.eqb_spec cid ""); [done|]. cbn.
    destruct (customer_agent_process _ _ _ sys) as [resp sys'].
    destruct (_select_recommendation_strategy _ _) as [strategy st1].
    unfold _generate_recommendations. cbn. discriminate.
Qed.

(** X18. A request for a customer who is not in the [customers] table is
    not an error: the coordinator answers with an empty recommendation
    list and no segment, no table row is written for the customer, and
    the recommendation agent selects a strategy under the key
    "strategy_preference_None", which, absent before, then holds
    "hybrid". *)
Theorem unknown_customer_is_not_an_error (customer_id : string) (sys : System) :
  customer_id <> "" ->
  get_customer customer_id (sys_customers sys) = None ->
  let out := coordinator_process (Some customer_id) sys in
  let st := sys_recommendation sys in
  let st' := sys_recommendation out.2 in
  (exists explanation,
     out.1 = CoordinatorResult customer_id None [] explanation)
  /\ sys_customers out.2 = sys_customers sys
  /\ sys_products out.2 = sys_products sys
  /\ recommendations (db st') = recommendations (db st)
  /\ (memory st !! "strategy_preference_None" = None ->
      get_agent_memory "recommendation" "strategy_preference_None" (db st) = [] ->
      memory st' !! "strategy_preference_None" = Some (Py.VStr "hybrid")
      /\ agent_memory (db st')
         = (agent_memory (db st)
            ++ [ {| m_agent_type := "recommendation";
                    m_memory_key := "strategy_preference_None";
                    m_memory_value := "hybrid" |} ])%list).
Proof.
  intros Hne Hnone out st st'. subst out st st'.
  unfold coordinator_process, customer_agent_process. cbn.
  destruct (String.eqb_spec customer_id ""); [done|]. cbn.
  rewrite Hnone. cbn. unfold process. cbn.
  pose proof (select_recommendations_table (defaults_customer_data "None")
                (sys_recommendation sys)) as Hrec.
  destruct (_select_recommendation_strategy (defaults_customer_data "None")
              (sys_recommendation sys)) as [strategy st1] eqn:Hsel.
  unfold _generate_recommendations. rewrite strategy_fn_no_products. cbn.
  cbn in Hrec.
  split; [by eexists|]. split; [done|]. split; [done|]. split; [done|].
  intros Hm Hdb.
  rewrite (select_default (defaults_customer_data "None")
             (sys_recommendation sys) (sys_recommendation sys) Py.VNone)
    in Hsel; [|by apply recall_memory_absent|done].
  injection Hsel as <- <-. cbn. split; [apply lookup_insert_eq|done].
Qed.

(** ** Strategy across requests *)

Lemma process_generation (c : CustomerData) (pd : option ProductData)
    (st : State) :
  response_strategy (process (generation_request c pd) st).1
  = Some (_select_recommendation_strategy c st).1
  /\ memory (process (generation_request c pd) st).2
     = memory (_select_recommendation_strategy c st).2.
Proof.
  unfold process, generation_request. cbn.
  by destruct (_select_recommendation_strategy c st) as [strategy st'].
Qed.

(** X19. Generation requests for one customer keep their strategy: when
    a request has been answered, a second request for the same
    customer that is answered, whatever its customer data and
    candidates and whatever rows the first one wrote, carries the
    strategy of the first. *)
Theorem generation_requests_keep_strategy
    (c c' : CustomerData) (pd pd' : option ProductData) (st : State)
    (recs recs' : list Recommendation) (strategy strategy' : Py.value)
    (explanation explanation' : string) :
  c_customer_id c' = c_customer_id c ->
  let first := process (generation_request c pd) st in
  first.1 = Recommendations recs strategy explanation ->
  (process (generation_request c' pd') first.2).1
  = Recommendations recs' strategy' explanation' ->
  strategy' = strategy.
Proof.
  intros Hid first Hfirst Hsecond. subst first.
  destruct (process_generation c pd st) as [Hs Hm].
  destruct (process_generation c' pd' (process (generation_request c pd) st).2)
    as [Hs' _].
  rewrite Hfirst in Hs. rewrite Hsecond in Hs'.
  cbn [response_strategy] in Hs, Hs'.
  injection Hs as ->. injection Hs' as ->.
  destruct (select_caches c st) as [Hc Ht].
  rewrite (select_from_cache c' _ (_select_recommendation_strategy c st).1);
    [done| |done].
  by rewrite Hm, Hid.
Qed.

Lemma recall_memory_update_feedback
    (agent key : string) (feedback : Z) (customer_id product_id : string)
    (st : State) :
  recall_memory agent key
    {| memory := memory st;
       db := update_feedback feedback customer_id product_id (db st) |}
  = ((recall_memory agent key st).1,
     {| memory := memory (recall_memory agent key st).2;
        db := update_feedback feedback customer_id product_id (db st) |}).
Proof.
  unfold recall_memory. cbn [memory db].
  destruct (memory st !! key); [done|].
  change (get_agent_memory agent key
            (update_feedback feedback customer_id product_id (db st)))
    with (get_agent_memory agent key (db st)).
  by destruct (get_agent_memory agent key (db st)).
Qed.

(** X20. Feedback steers the next request: for a customer whose stored
    preference is [cur], after a recorded feedback (one that fits
    SQLite's 64-bit integers) a generation request that is answered
    carries the next strategy of the cycle if the feedback was negative
    and [cur] itself if it was positive. *)
Theorem feedback_steers_next_generation
    (customer_id product_id : string) (feedback : Z) (c : CustomerData)
    (pd : option ProductData) (st st1 : State) (cur : string)
    (recs : list Recommendation) (strategy : Py.value) (explanation : string) :
  recall_memory agent_name (strategy_key customer_id) st = (Py.VStr cur, st1) ->
  cur ∈ strategies ->
  customer_id <> "" -> product_id <> "" -> feedback <> 0%Z ->
  sqlite_integer feedback ->
  c_customer_id c = customer_id ->
  let st' :=
    (handle_feedback (feedback_request customer_id product_id feedback) st).2 in
  (process (generation_request c pd) st').1
  = Recommendations recs strategy explanation ->
  strategy = Py.VStr (if (feedback <? 0)%Z then next_in_cycle cur else cur).
Proof.
  intros Hr Hcur Hc Hp Hf _ Hid st' Hanswer. subst st'.
  assert (Hall : all_present (Some customer_id) (Some product_id)
                             (Some feedback) = true).
  { unfold all_present. cbn.
    destruct (String.eqb_spec customer_id ""); [done|].
    destruct (String.eqb_spec product_id ""); [done|].
    destruct (Z.eqb_spec feedback 0); done. }
  destruct (process_generation c pd
              (handle_feedback
                 (feedback_request customer_id product_id feedback) st).2)
    as [Hs _].
  rewrite Hanswer in Hs. cbn [response_strategy] in Hs. injection Hs as ->.
  unfold handle_feedback, feedback_request.
  cbn [i_customer_id i_product_id i_feedback]. rewrite Hall. cbn [negb].
  unfold process. cbn. rewrite Hall. cbn [negb].
  set (st_u := {| memory := memory st;
                  db := update_feedback feedback customer_id product_id (db st) |}).
  assert (Hru : recall_memory agent_name (strategy_key customer_id) st_u
                = (Py.VStr cur,
                   {| memory := memory st1;
                      db := update_feedback feedback customer_id product_id
                              (db st) |})).
  { subst st_u. rewrite recall_memory_update_feedback. by rewrite Hr. }
  set (st1u := {| memory := memory st1;
                  db := update_feedback feedback customer_id product_id (db st) |})
    in *.
  unfold _learn_from_feedback. cbv zeta. rewrite Hru.
  rewrite (strategy_truthy cur Hcur).
  destruct (Z.ltb_spec feedback 0) as [Hneg|Hpos]; cbn [andb].
  - rewrite (rotation_code cur Hcur).
    rewrite (select_from_cache c _ (Py.VStr (next_in_cycle cur))); [done| |].
    + rewrite Hid. cbn. apply lookup_insert_eq.
    + by apply strategy_truthy, next_in_cycle_strategy.
  - rewrite (select_from_cache c _ (Py.VStr cur)); [done| |].
    + rewrite Hid. eapply recall_caches; [exact Hru|].
      by apply strategy_truthy.
    + by apply strategy_truthy.
Qed.

(** ** Collaborative engine *)

(** X21. The collaborative engine returns the first ten candidates in
    descending order of relevance, equal relevances in their input
    order, each scored with its relevance unchanged and all with the
    same reason, which names the customer's segment. *)
Theorem collaborative_ranking (c : CustomerData) (pd : ProductData) :
  let candidates := available_products pd in
  let ranked := Py.sorted_desc get_relevance_score candidates in
  _collaborative_filtering_strategy c pd
  = map (collaborative_rec (c_customer_segment c)) (take 10 ranked)
  /\ ranked ≡ₚ candidates
  /\ StronglySorted (desc get_relevance_score) ranked
  /\ (forall k,
        List.filter (fun p => Qeq_bool (get_relevance_score p) k) ranked
        = List.filter (fun p => Qeq_bool (get_relevance_score p) k) candidates)
  /\ StronglySorted (desc r_score) (_collaborative_filtering_strategy c pd)
  /\ Forall (fun r =>
               r_reason r
               = "Recommended based on preferences of similar "
                 ++ c_customer_segment c ++ " customers")
            (_collaborative_filtering_strategy c pd)
  /\ (forall p,
        r_product_id (collaborative_rec (c_customer_segment c) p)
        = p_product_id p
        /\ r_score (collaborative_rec (c_customer_segment c) p)
           = get_relevance_score p).
Proof.
  intros candidates ranked.
  split; [apply collaborative_unfold|].
  split; [apply sorted_desc_perm|].
  split; [apply sorted_desc_sorted|].
  split; [intros k; apply sorted_desc_stable|].
  split; [|split; [|done]].
  - rewrite collaborative_unfold.
    apply (StronglySorted_fmap _ (desc get_relevance_score) (desc r_score));
      [done|].
    apply take_sorted_desc_sorted.
  - rewrite collaborative_unfold. apply Forall_forall.
    by intros r (q & -> & Hq)%list_elem_of_fmap.
Qed.

(** ** Feedback validation *)

Lemma all_present_false (customer_id product_id : option string)
    (feedback : option Z) :
  all_present customer_id product_id feedback = false
  <-> (customer_id = None \/ customer_id = Some "")
      \/ (product_id = None \/ product_id = Some "")
      \/ (feedback = None \/ feedback = Some 0%Z).
Proof.
  pure_goal. unfold all_present.
  destruct customer_id as [cid|]; cbn; [|tauto].
  destruct (String.eqb_spec cid "") as [->|Hc]; cbn; [tauto|].
  destruct product_id as [pid|]; cbn;
    [|split; [tauto|done]].
  destruct (String.eqb_spec pid "") as [->|Hp]; cbn; [tauto|].
  destruct feedback as [fb|]; cbn; [|tauto].
  destruct (Z.eqb_spec fb 0) as [->|Hf]; cbn; [tauto|].
  split; [done|].
  intros [[H|H]|[[H|H]|[H|H]]]; congruence.
Qed.

(** X22. [handle_feedback] answers with an error exactly when the
    customer id or the product id is missing or empty, or the feedback
    is missing or 0; it then has written nothing, neither the feedback
    nor a preference. *)
Theorem handle_feedback_error_changes_nothing
    (feedback_data : InputData) (st : State) :
  let missing :=
    (i_customer_id feedback_data = None \/ i_customer_id feedback_data = Some "")
    \/ (i_product_id feedback_data = None \/ i_product_id feedback_data = Some "")
    \/ (i_feedback feedback_data = None \/ i_feedback feedback_data = Some 0%Z) in
  (missing ->
   handle_feedback feedback_data st
   = (Error "Missing required feedback data", st))
  /\ (forall msg,
        (handle_feedback feedback_data st).1 = Error msg -> missing).
Proof.
  intros missing. subst missing. split.
  - intros H%all_present_false. unfold handle_feedback. by rewrite H.
  - intros msg. unfold handle_feedback.
    destruct (all_present _ _ _) eqn:Hall; cbn [negb].
    + match goal with
      | |- context [process ?i ?s] => destruct (process i s) as [r s']
      end.
      discriminate.
    + intros _. by apply all_present_false.
Qed.

(** ** Customer agent *)

(** X23. The customer agent changes the system only by analysing the
    profile of a customer it finds.  A missing id, an unknown customer
    and an unknown action are answered with an error, and
    [update_profile] answers "profile_updated" without reading the
    updates and without updating anything. *)
Theorem customer_agent_changes_only_by_analysis
    (customer_id action : option string)
    (updates : list (string * Py.value)) (sys : System) :
  let out := customer_agent_process customer_id action updates sys in
  (customer_id = None \/ customer_id = Some "" ->
   out = (CustomerError "Customer ID is required", sys))
  /\ (forall cid,
        customer_id = Some cid -> cid <> "" ->
        get_customer cid (sys_customers sys) = None ->
        out = (CustomerError ("Customer " ++ cid ++ " not found"), sys))
  /\ (forall cid row,
        customer_id = Some cid -> cid <> "" ->
        get_customer cid (sys_customers sys) = Some row ->
        action = Some "update_profile" ->
        out = (ProfileUpdated (cu_customer_id row), sys)
        /\ cu_customer_id row = cid)
  /\ (out.2 <> sys ->
      (action = None \/ action = Some "analyze_profile")
      /\ exists cid row,
           customer_id = Some cid
           /\ get_customer cid (sys_customers sys) = Some row
           /\ out.2 = (_analyze_customer_profile row sys).2).
Proof.
  intros out. subst out. unfold customer_agent_process.
  split; [by intros [->| ->]|].
  split.
  { intros cid -> Hne Hnone. cbn.
    destruct (String.eqb_spec cid ""); [done|]. cbn. by rewrite Hnone. }
  split.
  { intros cid row -> Hne Hrow ->. cbn.
    destruct (String.eqb_spec cid ""); [done|]. cbn. rewrite Hrow.
    split; [done|].
    unfold get_customer in Hrow. apply find_some in Hrow as [_ Hrow].
    by apply String.eqb_eq in Hrow. }
  destruct customer_id as [cid|]; [|done]. cbn.
  destruct (String.eqb_spec cid ""); [done|]. cbn.
  destruct (get_customer cid (sys_customers sys)) as [row|] eqn:Hrow; [|done].
  destruct action as [a|]; cbn.
  - destruct (String.eqb_spec a "analyze_profile") as [->|Ha].
    + destruct (_analyze_customer_profile row sys) as [[analysis cats] sys']
        eqn:Han.
      intros _. split; [by right|]. exists cid, row. by rewrite Han.
    + by destruct (String.eqb a "update_profile").
  - destruct (_analyze_customer_profile row sys) as [[analysis cats] sys']
      eqn:Han.
    intros _. split; [by left|]. exists cid, row. by rewrite Han.
Qed.

(** ** Coordinator, known customer *)

Lemma strategy_fn_engine (strategy : Py.value) (c : CustomerData)
    (pd : ProductData) :
  strategy_fn strategy c pd = _collaborative_filtering_strategy c pd
  \/ strategy_fn strategy c pd = _content_based_strategy c pd
  \/ strategy_fn strategy c pd = _popularity_based_strategy c pd
  \/ strategy_fn strategy c pd = _hybrid_strategy c pd.
Proof.
  unfold strategy_fn.
  destruct (Py.eq_str strategy "collaborative_filtering"); [by left|].
  destruct (Py.eq_str strategy "content_based"); [by right; left|].
  destruct (Py.eq_str strategy "popularity_based");
    [by right; right; left|by right; right; right].
Qed.

(** X24. For a customer of the [customers] table whose analysis carries
    the customer's id, and a [products] table whose rows of the
    relevant categories are scorable: when the coordinator answers, it
    answers with the customer's id and segment and at most ten
    recommendations, each carrying the id, category and price of a row
    of the [products] table whose category is one of the analysis's
    relevant categories; one row per recommendation has been appended
    to the [recommendations] table under the customer's id, and the
    [customers] and [products] tables are as the analysis left them. *)
Theorem coordinator_recommends_from_catalog
    (customer_id : string) (sys sys1 : System) (row : CustomerRow)
    (analysis : CustomerData) (relevant_categories : list string)
    (answered : string) (segment : option string)
    (recs : list Recommendation) (explanation : string) :
  customer_id <> "" ->
  get_customer customer_id (sys_customers sys) = Some row ->
  _analyze_customer_profile row sys = (analysis, relevant_categories, sys1) ->
  c_customer_id analysis = customer_id ->
  Forall scorable
         (products_of_categories (sys_products sys1) relevant_categories) ->
  (coordinator_process (Some customer_id) sys).1
  = CoordinatorResult answered segment recs explanation ->
  let out := coordinator_process (Some customer_id) sys in
  answered = customer_id
  /\ segment = Some (c_customer_segment analysis)
  /\ (length recs <= 10)%nat
  /\ Forall (from_catalog (sys_products sys1) relevant_categories) recs
  /\ recommendations (db (sys_recommendation out.2))
     = (recommendations (db (sys_recommendation sys1))
        ++ map (recommendation_row customer_id) recs)%list
  /\ sys_customers out.2 = sys_customers sys1
  /\ sys_products out.2 = sys_products sys1.
Proof.
  intros Hne Hrow Han Hid _ Hanswer out. subst out. revert Hanswer.
  unfold coordinator_process, customer_agent_process. cbn.
  destruct (String.eqb_spec customer_id ""); [done|]. cbn.
  rewrite Hrow. cbn. rewrite Han. cbn. unfold process. cbn.
  pose proof (select_recommendations_table analysis (sys_recommendation sys1))
    as Hrec.
  destruct (_select_recommendation_strategy analysis (sys_recommendation sys1))
    as [strategy st1]. cbn in Hrec.
  set (pd := response_product_data
               (_find_relevant_products (sys_products sys1)
                  relevant_categories analysis)).
  unfold _generate_recommendations. rewrite foldl_add_recommendation. cbn.
  intros [= <- <- <- _].
  split; [done|]. split; [done|].
  destruct (engines_at_most_ten analysis pd) as (H1 & H2 & H3 & H4).
  split; [destruct (strategy_fn_engine strategy analysis pd)
            as [->|[->|[->| ->]]]; done|].
  split; [|by rewrite Hrec, Hid].
  apply Forall_forall. intros r Hr.
  assert (Hfrom : from_candidate pd r).
  { apply (engines_describe_candidates analysis).
    destruct (strategy_fn_engine strategy analysis pd) as [E|[E|[E|E]]];
      rewrite E in Hr; auto. }
  destruct Hfrom as (p & Hp & Hpid & Hcat & Hprice).
  apply relevant_products_elem in Hp as (prow & Hprow & Hpcat & ->).
  by exists prow.
Qed.

(** ** HTTP endpoints *)

(** X25. [POST /recommendations] answers 200 for every non-empty
    customer id, known or not: for an id that is not in the [customers]
    table the body is an empty recommendation list.  The empty id is
    answered with status 500, the 400 raised for it being caught and
    replaced; and the requested [limit] has no effect on the answer or
    on what is stored. *)
Theorem recommendations_endpoint_status
    (customer_id : string) (limit limit' : option Z) (sys : System) :
  let request limit := {| rq_customer_id := customer_id; rq_limit := limit |} in
  get_recommendations (request limit) sys
  = get_recommendations (request limit') sys
  /\ (customer_id = "" ->
      get_recommendations (request limit) sys
      = (HttpException 500
           (str_of_http_exception 400 "Customer ID is required"), sys))
  /\ (customer_id <> "" ->
      exists segment recs explanation,
        (get_recommendations (request limit) sys).1
        = HttpOk (CoordinatorResult customer_id segment recs explanation)
        /\ (get_customer customer_id (sys_customers sys) = None ->
            segment = None /\ recs = [])).
Proof.
  intros request. subst request. split; [done|]. split.
  - intros ->. done.
  - intros Hne. unfold get_recommendations. cbn [rq_customer_id].
    unfold coordinator_process, customer_agent_process. cbn.
    destruct (String.eqb_spec customer_id ""); [done|]. cbn.
    destruct (get_customer customer_id (sys_customers sys)) as [row|] eqn:Hrow;
      cbn.
    + destruct (_analyze_customer_profile row sys) as [[analysis cats] sys1].
      cbn. unfold process. cbn.
      destruct (_select_recommendation_strategy _ _) as [strategy st1].
      unfold _generate_recommendations. cbn.
      do 3 eexists. split; [done|]. done.
    + unfold process. cbn.
      destruct (_select_recommendation_strategy _ _) as [strategy st1].
      unfold _generate_recommendations. rewrite strategy_fn_no_products. cbn.
      do 3 eexists. split; [done|]. done.
Qed.

(** X26. [POST /feedback] answers 500, never 400, exactly when the
    customer id or the product id is empty or the feedback is 0, and
    then nothing is written; every other request is answered 200 with
    "feedback_recorded". *)
Theorem feedback_endpoint_status (request : FeedbackRequest) (sys : System) :
  let invalid :=
    fq_customer_id request = "" \/ fq_product_id request = ""
    \/ fq_feedback request = 0%Z in
  (invalid ->
   (submit_feedback request sys).1
   = HttpException 500
       (str_of_http_exception 400 "Missing required feedback data")
   /\ sys_recommendation (submit_feedback request sys).2
      = sys_recommendation sys)
  /\ (~ invalid ->
      (submit_feedback request sys).1 = HttpOk CoordinatorFeedbackRecorded)
  /\ (forall detail,
        (submit_feedback request sys).1 <> HttpException 400 detail).
Proof.
  intros invalid. subst invalid.
  set (input := {| i_action := None;
                   i_customer_data := None;
                   i_product_data := None;
                   i_customer_id := Some (fq_customer_id request);
                   i_product_id := Some (fq_product_id request);
                   i_feedback := Some (fq_feedback request) |}).
  assert (Hall : all_present (i_customer_id input) (i_product_id input)
                             (i_feedback input) = false
                 <-> fq_customer_id request = "" \/ fq_product_id request = ""
                     \/ fq_feedback request = 0%Z).
  { rewrite all_present_false. subst input. cbn. clear.
    split.
    - intros [[H|H]|[[H|H]|[H|H]]]; try discriminate;
        injection H as H; auto.
    - intros [H|[H|H]]; rewrite H; auto. }
  unfold submit_feedback. fold input. unfold handle_feedback.
  destruct (all_present (i_customer_id input) (i_product_id input)
                        (i_feedback input)) eqn:E; cbn [negb].
  - match goal with
    | |- context [process ?i ?s] => destruct (process i s) as [r s']
    end.
    cbn. split; [|split; [done|done]].
    intros H. apply Hall in H. discriminate.
  - cbn. split; [done|]. split; [|done].
    intros H. exfalso. apply H, Hall. done.
Qed.

(** ** The hybrid engine on at most ten candidates *)

Lemma take_sorted_desc_all {A} (key : A -> Q) (n : nat) (l : list A) :
  (length l <= n)%nat -> take n (Py.sorted_desc key l) = Py.sorted_desc key l.
Proof.
  intros Hlen. apply take_ge.
  by rewrite (Permutation_length (sorted_desc_perm key l)).
Qed.

Lemma NoDup_incl_length {A} (l k : list A) :
  NoDup l -> (forall x, x ∈ l -> x ∈ k) -> (length l <= length k)%nat.
Proof.
  intros Hnd Hin. apply submseteq_length. by apply NoDup_submseteq.
Qed.

Lemma sub_engines_list_few (c : CustomerData) (pd : ProductData) (p : Product) :
  (length (available_products pd) <= 10)%nat ->
  p ∈ available_products pd ->
  collaborative_rec (c_customer_segment c) p
    ∈ _collaborative_filtering_strategy c pd
  /\ content_scored (c_browsing_history c) (c_purchase_history c) p
       ∈ _content_based_strategy c pd
  /\ popularity_rec p ∈ _popularity_based_strategy c pd.
Proof.
  intros Hlen Hp.
  rewrite collaborative_unfold, content_unfold, popularity_unfold.
  rewrite !take_sorted_desc_all by by rewrite ?length_map.
  repeat split.
  - apply list_elem_of_fmap_2. by apply sorted_desc_elem_of.
  - apply sorted_desc_elem_of. by apply list_elem_of_fmap_2.
  - apply list_elem_of_fmap_2. by apply sorted_desc_elem_of.
Qed.

Lemma hybrid_ids_few (c : CustomerData) (pd : ProductData) (k : string) :
  (length (available_products pd) <= 10)%nat ->
  k ∈ map r_product_id (map snd (hybrid_all_recs c pd))
  <-> k ∈ map p_product_id (available_products pd).
Proof.
  intros Hlen. rewrite hybrid_keys. split.
  - intros [H|[H|H]]; apply list_elem_of_fmap in H as (r & -> & Hr).
    + apply collaborative_elem in Hr as (p & Hp & ->).
      by apply (list_elem_of_fmap_2 p_product_id).
    + apply content_elem in Hr as (p & Hp & ->).
      by apply (list_elem_of_fmap_2 p_product_id).
    + apply popularity_elem in Hr as (p & Hp & ->).
      by apply (list_elem_of_fmap_2 p_product_id).
  - intros (p & -> & Hp)%list_elem_of_fmap. left.
    destruct (sub_engines_list_few c pd p Hlen Hp) as (Hc & _ & _).
    by apply (list_elem_of_fmap_2 r_product_id) in Hc.
Qed.

Lemma hybrid_length_few (c : CustomerData) (pd : ProductData) :
  NoDup (map p_product_id (available_products pd)) ->
  (length (available_products pd) <= 10)%nat ->
  length (hybrid_all_recs c pd) = length (available_products pd).
Proof.
  intros Hnd Hlen.
  pose proof (hybrid_all_recs_wf c pd) as Hwf.
  pose proof (table_values_ids _ Hwf) as Hids.
  destruct Hwf as [Hkeys _].
  rewrite <- (length_map fst (hybrid_all_recs c pd)).
  rewrite <- (length_map p_product_id (available_products pd)).
  apply Nat.le_antisymm; apply NoDup_incl_length; try done.
  - intros k Hk. apply (hybrid_ids_few c pd k Hlen). by rewrite Hids.
  - intros k Hk. rewrite <- Hids. by apply (hybrid_ids_few c pd k Hlen).
Qed.

(** X27. With at most ten candidates of pairwise distinct ids, no
    sub-engine truncates: the hybrid engine recommends every candidate,
    exactly once, and the candidate's final score is
    0.4 * relevance + 0.4 * (relevance + content boost)
    + 0.2 * rating / 5.0. *)
Theorem hybrid_of_few_candidates (c : CustomerData) (pd : ProductData) :
  NoDup (map p_product_id (available_products pd)) ->
  (length (available_products pd) <= 10)%nat ->
  length (_hybrid_strategy c pd) = length (available_products pd)
  /\ NoDup (map r_product_id (_hybrid_strategy c pd))
  /\ forall p, p ∈ available_products pd ->
       exists r, r ∈ _hybrid_strategy c pd
                 /\ r_product_id r = p_product_id p
                 /\ r_score r
                    == 0.4 * get_relevance_score p
                       + 0.4 * (get_relevance_score p
                                + content_boost c (p_category p))
                       + 0.2 * (p_product_rating p / 5.0).
Proof.
  intros Hnd Hlen.
  pose proof (hybrid_length_few c pd Hnd Hlen) as Hlm.
  assert (Hall : _hybrid_strategy c pd
                 = Py.sorted_desc r_score (map snd (hybrid_all_recs c pd))).
  { unfold _hybrid_strategy. apply take_sorted_desc_all.
    rewrite length_map. lia. }
  split; [|split].
  - rewrite Hall, (Permutation_length (sorted_desc_perm _ _)), length_map.
    done.
  - unfold _hybrid_strategy. apply NoDup_take_sorted.
    rewrite (table_values_ids _ (hybrid_all_recs_wf c pd)).
    apply hybrid_all_recs_wf.
  - intros p Hp.
    assert (Hk : p_product_id p
                 ∈ map r_product_id (map snd (hybrid_all_recs c pd))).
    { apply (hybrid_ids_few c pd _ Hlen). by apply list_elem_of_fmap_2. }
    apply list_elem_of_fmap in Hk as (r & Hid & Hr).
    exists r. split; [|split; [done|]].
    { rewrite Hall. by apply sorted_desc_elem_of. }
    rewrite (hybrid_score c pd r Hnd Hr), <- Hid.
    destruct (sub_engines_list_few c pd p Hlen Hp) as (Hc & Ht & Hpop).
    unfold score_in.
    rewrite (find_rec_elem _ _ (collaborative_ids_NoDup c pd Hnd) Hc
             : find_rec (p_product_id p) _ = _).
    rewrite (find_rec_elem _ _ (content_ids_NoDup c pd Hnd) Ht
             : find_rec (p_product_id p) _ = _).
    rewrite (find_rec_elem _ _ (popularity_ids_NoDup c pd Hnd) Hpop
             : find_rec (p_product_id p) _ = _).
    cbn [from_option].
    rewrite content_scored_score. cbn [collaborative_rec popularity_rec r_score].
    reflexivity.
Qed.

End Agents.

(** ** The theorems at sample inputs *)

Lemma sample_candidates_NoDup :
  NoDup (map p_product_id (available_products sample_candidates)).
Proof. by apply (bool_decide_unpack _). Defined.

Lemma sample_candidates_bounds (p : Product) :
  p ∈ available_products sample_candidates ->
  0 <= get_relevance_score p <= 1 /\ 0 <= p_product_rating p <= 5.
Proof.
  cbn. rewrite !elem_of_cons, elem_of_nil.
  intros [->|[->|[]]]; cbn; lra.
Defined.

Lemma empty_candidates_witness :
  available_products {| pd_products := None |} = []
  /\ _hybrid_strategy sample_str_of_float sample_books_customer
       {| pd_products := None |} = [].
Proof.
  split; [reflexivity|].
  apply (empty_candidates_empty_recommendations sample_str_of_float
           sample_books_customer {| pd_products := None |}).
  reflexivity.
Defined.


Lemma engine_score_bounds_witness :
  NoDup (map p_product_id (available_products sample_candidates))
  /\ (forall r,
        r ∈ _hybrid_strategy sample_str_of_float sample_books_customer
              sample_candidates ->
        0 <= r_score r <= 1.1).
Proof.
  split; [exact sample_candidates_NoDup|].
  exact (proj2 (proj2 (proj2
           (engine_score_bounds sample_str_of_float sample_books_customer
              sample_candidates sample_candidates_bounds)))
           sample_candidates_NoDup).
Defined.

(** C1, at a concrete input.  A candidate of relevance 1 and rating 5
    whose category is in both histories gets the content-based score 1.25
    and the hybrid score 1.1: neither engine clamps to [0,1]. *)
Lemma unclamped_scores_counterexample :
  scores_are (_content_based_strategy sample_books_customer top_candidate)
             [("P1", 1.25)]
  /\ scores_are (_hybrid_strategy sample_str_of_float sample_books_customer
                   top_candidate)
                [("P1", 1.1)]
  /\ ~ Forall (fun r => 0 <= r_score r <= 1)
              (_content_based_strategy sample_books_customer top_candidate)
  /\ ~ Forall (fun r => 0 <= r_score r <= 1)
              (_hybrid_strategy sample_str_of_float sample_books_customer
                 top_candidate).
Proof.
  split; [repeat constructor|]. split; [repeat constructor|].
  split; intros H; apply Forall_cons_1 in H as [[_ H] _];
    vm_compute in H; by apply H.
Qed.

Lemma selector_policy_witness :
  _select_recommendation_strategy sample_json_loads
    (sample_customer "C1" "Frequent Buyer" [] []) cached_state
  = (Py.VStr "hybrid", cached_state)
  /\ (_select_recommendation_strategy sample_json_loads
        (sample_customer "C1" "Frequent Buyer" [] []) durable_state).1
     = Py.VStr "hybrid"
  /\ (_select_recommendation_strategy sample_json_loads
        (sample_customer "C1" "New Visitor" [] []) fresh_state).1
     = Py.VStr "popularity_based"
  /\ memory (_select_recommendation_strategy sample_json_loads
               (sample_customer "C1" "New Visitor" [] []) fresh_state).2
     !! "strategy_preference_C1"
     = Some (Py.VStr "popularity_based").
Proof.
  split; [|split].
  - apply (selector_policy sample_json_loads
             (sample_customer "C1" "Frequent Buyer" [] []) cached_state);
      reflexivity.
  - rewrite (proj1 (proj2 (selector_policy sample_json_loads
               (sample_customer "C1" "Frequent Buyer" [] []) durable_state))
               {| m_agent_type := "recommendation";
                  m_memory_key := "strategy_preference_C1";
                  m_memory_value := "hybrid" |} []);
      [reflexivity|reflexivity|reflexivity|reflexivity|discriminate].
  - destruct (proj2 (proj2 (selector_policy sample_json_loads
               (sample_customer "C1" "New Visitor" [] []) fresh_state))
               eq_refl eq_refl) as (H1 & H2 & _).
    split; [by rewrite H1|]. rewrite H2. reflexivity.
Defined.

Lemma feedback_rotation_witness :
  recall_memory sample_json_loads agent_name (strategy_key "C1") durable_state
  = (Py.VStr "hybrid", warmed_state)
  /\ "hybrid" ∈ strategies
  /\ (_learn_from_feedback sample_json_loads "C1" "P1" (-1) durable_state).1
     = LearnedFromFeedback (Py.VStr "hybrid") "collaborative_filtering"
  /\ agent_memory
       (db (_learn_from_feedback sample_json_loads "C1" "P1" (-1)
              durable_state).2)
     = [durable_row; rotated_row]
  /\ _learn_from_feedback sample_json_loads "C1" "P1" 1 durable_state
     = (FeedbackRecorded (Py.VStr "hybrid"), warmed_state)
  /\ _learn_from_feedback sample_json_loads "C1" "P1" (-1) fresh_state
     = (FeedbackRecorded Py.VNone, fresh_state).
Proof.
  assert (Hr : recall_memory sample_json_loads agent_name (strategy_key "C1")
                 durable_state = (Py.VStr "hybrid", warmed_state)) by reflexivity.
  assert (Hs : "hybrid" ∈ strategies)
    by (unfold strategies; repeat first [apply list_elem_of_here|apply list_elem_of_further]).
  split; [exact Hr|]. split; [exact Hs|].
  pose proof (feedback_rotation sample_json_loads "C1" "P1" (-1) durable_state)
    as Hneg.
  pose proof (feedback_rotation sample_json_loads "C1" "P1" 1 durable_state)
    as Hpos.
  pose proof (feedback_rotation sample_json_loads "C1" "P1" (-1) fresh_state)
    as Hnone.
  cbv zeta in Hneg, Hpos, Hnone.
  destruct Hneg as (_ & Hneg & _). destruct Hpos as (_ & Hpos & _).
  destruct Hnone as (_ & _ & Hnone).
  destruct (proj1 (Hneg "hybrid" warmed_state Hr Hs) ltac:(lia))
    as (H1 & _ & H2 & _).
  destruct (proj2 (Hpos "hybrid" warmed_state Hr Hs) ltac:(lia)) as (H3 & _).
  split; [exact H1|]. split; [exact H2|]. split; [exact H3|].
  apply Hnone; reflexivity.
Defined.

(** C4, at a concrete input.  The preference stored for "C1" in the
    table is "hybrid".  After a feedback of -1 the table holds that row
    and, behind it, the new one: the stored preference has not become
    "collaborative_filtering".  An agent with an empty memory on this
    database recalls "hybrid", and a second feedback of -1 moves it from
    "hybrid" to "collaborative_filtering" again, not one position
    further. *)
Lemma durable_preference_counterexample :
  db (_learn_from_feedback sample_json_loads "C1" "P1" (-1) durable_state).2
  = db restarted_state
  /\ map m_memory_value
       (get_agent_memory "recommendation" "strategy_preference_C1"
          (db restarted_state))
     = ["hybrid"; "collaborative_filtering"]
  /\ (recall_memory sample_json_loads agent_name (strategy_key "C1")
        restarted_state).1
     = Py.VStr "hybrid"
  /\ (recall_memory sample_json_loads agent_name (strategy_key "C1")
        restarted_state).1
     <> Py.VStr "collaborative_filtering"
  /\ (_learn_from_feedback sample_json_loads "C1" "P1" (-1) restarted_state).1
     = LearnedFromFeedback (Py.VStr "hybrid") "collaborative_filtering".
Proof. repeat split; by vm_compute. Qed.


Lemma select_idempotent_witness :
  c_customer_id (sample_customer "C1" "Frequent Buyer" [] [])
  = c_customer_id (sample_customer "C1" "New Visitor" [] [])
  /\ (_select_recommendation_strategy sample_json_loads
        (sample_customer "C1" "New Visitor" [] []) fresh_state).1
     = Py.VStr "popularity_based"
  /\ _select_recommendation_strategy sample_json_loads
       (sample_customer "C1" "Frequent Buyer" [] [])
       (_select_recommendation_strategy sample_json_loads
          (sample_customer "C1" "New Visitor" [] []) fresh_state).2
     = _select_recommendation_strategy sample_json_loads
         (sample_customer "C1" "New Visitor" [] []) fresh_state.
Proof.
  split; [reflexivity|]. split; [reflexivity|].
  exact (proj2 (proj2 (select_idempotent sample_json_loads
                         (sample_customer "C1" "New Visitor" [] [])
                         (sample_customer "C1" "Frequent Buyer" [] [])
                         fresh_state eq_refl))).
Defined.

(** The price test of the relevance scorer compares doubles: 3 * 0.7 is
    2.0999999999999996, below the price 2.1, while 1 * 0.7 is the
    double 0.7 itself. *)
Example price_fit_compares_doubles :
  Py.float 2.1 = SpecFloat.S754_finite false 4728779608739021 (-51)
  /\ Py.float_mul (Py.float 3) (Py.float 0.7)
     = SpecFloat.S754_finite false 4728779608739020 (-51)
  /\ relevance_score (price_sensitive 3) (priced_product 2.1) == 0.75
  /\ relevance_score (price_sensitive 1) (priced_product 0.7) == 0.95.
Proof. repeat split; by vm_compute. Qed.

(** A positive number below the smallest double reads as 0.0, and a
    price of 0.0 meets an order value of 0. *)
Example tiny_price_reads_as_zero :
  0 < 1 # 10 ^ 400
  /\ Py.float (1 # 10 ^ 400) = SpecFloat.S754_zero false
  /\ relevance_score (price_sensitive 0) (priced_product (1 # 10 ^ 400))
     == 0.95.
Proof. repeat split; by vm_compute. Qed.

(** ** End-to-end runs *)

(** A new visitor on a fresh agent, the customer and the candidates
    being rows of their tables: the selector picks and stores
    popularity_based, the popularity engine ranks the candidates, and
    one row per recommendation is appended to the database. *)
Example generate_for_new_visitor :
  let input :=
    {| i_action := None;
       i_customer_data := Some (sample_customer "C1" "New Visitor" [] []);
       i_product_data := Some sample_candidates;
       i_customer_id := None;
       i_product_id := None;
       i_feedback := None |} in
  let out :=
    process sample_json_loads sample_str_of_float sample_get_llm_response
            input fresh_state in
  match out.1 with
  | Recommendations recs strategy _ =>
      strategy = Py.VStr "popularity_based"
      /\ scores_are recs [("P1", 1); ("P2", 0.6)]
  | _ => False
  end
  /\ memory out.2 !! "strategy_preference_C1" = Some (Py.VStr "popularity_based")
  /\ map rr_product_id (recommendations (db out.2)) = ["P1"; "P2"]
  /\ map rr_feedback (recommendations (db out.2)) = [0%Z; 0%Z].
Proof. cbv zeta. split; [split; [reflexivity|repeat constructor]|]. by vm_compute. Qed.

(** A feedback of -1 passes the validation that rejects 0: the
    recommendation rows are updated and the preference rotates. *)
Example negative_feedback_accepted :
  let input :=
    {| i_action := None;
       i_customer_data := None;
       i_product_data := None;
       i_customer_id := Some "C1";
       i_product_id := Some "P1";
       i_feedback := Some (-1)%Z |} in
  let out :=
    handle_feedback sample_json_loads sample_str_of_float
                    sample_get_llm_response input cached_state in
  out.1 = CoordinatorFeedbackRecorded
  /\ memory out.2 !! "strategy_preference_C1"
     = Some (Py.VStr "collaborative_filtering").
Proof. by vm_compute. Qed.


(** ** The further properties at sample inputs *)

Lemma store_recall_round_trip_witness :
  get_agent_memory "recommendation" "k" (db fresh_state) = []
  /\ (recall_memory sample_json_loads "recommendation" "k"
        {| memory := ∅;
           db := db (store_memory "recommendation" "k" "true" fresh_state) |}).1
     = Py.VBool true.
Proof.
  split; [reflexivity|].
  exact (proj2 (store_recall_round_trip sample_json_loads
                  "recommendation" "k" "true" fresh_state) eq_refl).
Defined.

Lemma durable_first_row_wins_witness :
  get_agent_memory agent_name (strategy_key "C1") (db durable_state)
  = [durable_row]
  /\ (recall_memory sample_json_loads agent_name (strategy_key "C1")
        {| memory := ∅;
           db := db (store_memory agent_name (strategy_key "C1")
                       "content_based" durable_state) |}).1
     = Py.VStr "hybrid".
Proof.
  split; [reflexivity|].
  pose proof (durable_first_row_wins sample_json_loads agent_name
                (strategy_key "C1") "content_based" durable_state
                durable_row [] eq_refl) as H.
  cbv zeta in H. exact (proj1 (proj2 H)).
Defined.

Lemma recall_memory_read_only_witness :
  memory cached_state !! strategy_key "C1" = Some (Py.VStr "hybrid")
  /\ recall_memory sample_json_loads agent_name (strategy_key "C1") cached_state
     = (Py.VStr "hybrid", cached_state).
Proof.
  split; [reflexivity|].
  pose proof (recall_memory_read_only sample_json_loads agent_name
                (strategy_key "C1") cached_state) as H.
  cbv zeta in H. exact (proj1 (proj2 (proj2 H)) (Py.VStr "hybrid") eq_refl).
Defined.

Lemma store_memory_local_witness :
  "other" <> "k" /\ "other" <> ""
  /\ (recall_memory sample_json_loads "recommendation" "other"
        (store_memory "recommendation" "k" "v" durable_state)).1
     = (recall_memory sample_json_loads "recommendation" "other"
          durable_state).1.
Proof.
  split; [discriminate|]. split; [discriminate|].
  apply (store_memory_local sample_json_loads "recommendation" "k" "v"
           "recommendation" "other" durable_state); discriminate.
Defined.

Lemma sample_products_table_NoDup :
  NoDup (map p_product_id sample_products_table).
Proof. by apply (bool_decide_unpack _). Defined.

Lemma sample_categories_NoDup : NoDup ["Books"; "Toys"].
Proof. by apply (bool_decide_unpack _). Defined.

Lemma sample_rows_scorable :
  Forall scorable
         (products_of_categories sample_products_table ["Books"; "Toys"]).
Proof. repeat (constructor; [discriminate|]). constructor. Defined.


Lemma relevant_products_distinct_witness :
  NoDup (map p_product_id sample_products_table)
  /\ NoDup ["Books"; "Toys"]
  /\ NoDup (map p_product_id
              (available_products
                 (response_product_data
                    (_find_relevant_products sample_get_product_explanation
                       sample_products_table ["Books"; "Toys"]
                       sample_books_customer)))).
Proof.
  split; [exact sample_products_table_NoDup|].
  split; [exact sample_categories_NoDup|].
  exact (relevant_products_distinct sample_get_product_explanation
           sample_products_table ["Books"; "Toys"] sample_books_customer
           sample_products_table_NoDup sample_categories_NoDup).
Defined.

Lemma random_is_no_strategy (s : string) :
  s ∈ ["collaborative_filtering"; "content_based"; "popularity_based"] ->
  Py.VStr "random" <> Py.VStr s.
Proof.
  intros Hs [= <-]. apply list_elem_of_In in Hs. cbn in Hs.
  destruct Hs as [Hs|[Hs|[Hs|[]]]]; discriminate.
Defined.

Lemma generate_recommendations_persists_witness :
  Py.hashable (Py.VStr "random") = true
  /\ (exists recs explanation,
        (_generate_recommendations sample_str_of_float
           sample_get_llm_response sample_books_customer sample_candidates
           (Py.VStr "random") fresh_state).1
        = Recommendations recs (Py.VStr "random") explanation)
  /\ map rr_product_id
       (recommendations
          (db (_generate_recommendations sample_str_of_float
                 sample_get_llm_response sample_books_customer
                 sample_candidates (Py.VStr "random") fresh_state).2))
     = map r_product_id
         (_hybrid_strategy sample_str_of_float sample_books_customer
            sample_candidates).
Proof.
  split; [reflexivity|]. split; [by eexists _, _|].
  destruct (generate_recommendations_persists sample_str_of_float
              sample_get_llm_response sample_books_customer
              sample_candidates (Py.VStr "random") fresh_state
              (_hybrid_strategy sample_str_of_float sample_books_customer
                 sample_candidates)
              (Py.VStr "random")
              (_generate_recommendation_explanation sample_get_llm_response
                 (_hybrid_strategy sample_str_of_float sample_books_customer
                    sample_candidates)
                 sample_books_customer (Py.VStr "random"))
              eq_refl eq_refl) as (_ & Hrows & _).
  rewrite Hrows. reflexivity.
Defined.

Lemma process_error_changes_nothing_witness :
  (process sample_json_loads sample_str_of_float sample_get_llm_response
     (feedback_request "C1" "P1" 0) cached_state).1
  = Error "Customer data is required"
  /\ (process sample_json_loads sample_str_of_float sample_get_llm_response
        (feedback_request "C1" "P1" 0) cached_state).2
     = cached_state.
Proof.
  split; [reflexivity|].
  exact (proj1 (process_error_changes_nothing sample_json_loads
                  sample_str_of_float sample_get_llm_response
                  (feedback_request "C1" "P1" 0) cached_state
                  "Customer data is required" eq_refl)).
Defined.

Lemma one_is_sqlite_integer : sqlite_integer 1.
Proof. unfold sqlite_integer. lia. Defined.

Lemma minus_one_is_sqlite_integer : sqlite_integer (-1).
Proof. unfold sqlite_integer. lia. Defined.

Lemma handle_feedback_records_witness :
  "C1" <> "" /\ "P1" <> "" /\ 1%Z <> 0%Z /\ sqlite_integer 1
  /\ Forall2 (feedback_applied 1 "C1" "P1")
       (recommendations (db rated_state))
       (recommendations
          (db (handle_feedback sample_json_loads sample_str_of_float
                 sample_get_llm_response (feedback_request "C1" "P1" 1)
                 rated_state).2)).
Proof.
  split; [discriminate|]. split; [discriminate|]. split; [discriminate|].
  split; [exact one_is_sqlite_integer|].
  pose proof (handle_feedback_records sample_json_loads sample_str_of_float
                sample_get_llm_response None None None "C1" "P1" 1
                rated_state ltac:(discriminate) ltac:(discriminate)
                ltac:(discriminate) one_is_sqlite_integer) as H.
  cbv zeta in H. exact (proj1 (proj2 H)).
Defined.

Lemma hybrid_is_strategy : "hybrid" ∈ strategies.
Proof.
  unfold strategies.
  repeat first [apply list_elem_of_here|apply list_elem_of_further].
Defined.

Lemma negative_feedback_walks_cycle_witness :
  recall_memory sample_json_loads agent_name (strategy_key "C1") durable_state
  = (Py.VStr "hybrid", warmed_state)
  /\ (recall_memory sample_json_loads agent_name (strategy_key "C1")
        (Nat.iter 5
           (fun st => (_learn_from_feedback sample_json_loads "C1" "P1" (-1)
                         st).2)
           durable_state)).1
     = Py.VStr "collaborative_filtering".
Proof.
  split; [reflexivity|].
  pose proof (negative_feedback_walks_cycle sample_json_loads "C1" "P1" (-1) 5
                durable_state warmed_state "hybrid" eq_refl
                hybrid_is_strategy ltac:(lia)) as H.
  cbv zeta in H. exact (proj1 H).
Defined.

Lemma random_is_not_registered (s : string) :
  s ∈ strategies -> Py.VStr "random" <> Py.VStr s.
Proof.
  intros Hs [= <-]. apply list_elem_of_In in Hs. cbn in Hs.
  destruct Hs as [Hs|[Hs|[Hs|[Hs|[]]]]]; discriminate.
Defined.

Lemma unrecognised_preference_witness :
  recall_memory sample_json_loads agent_name (strategy_key "C1") odd_state
  = (Py.VStr "random", odd_state)
  /\ _learn_from_feedback sample_json_loads "C1" "P1" (-1) odd_state
     = (LearnedFromFeedback (Py.VStr "random") "content_based",
        store_memory agent_name (strategy_key "C1") "content_based" odd_state).
Proof.
  split; [reflexivity|].
  exact (unrecognised_preference_moves_to_content_based sample_json_loads
           "C1" "P1" (-1) odd_state odd_state (Py.VStr "random")
           eq_refl eq_refl random_is_not_registered ltac:(lia)).
Defined.

Lemma price_sensitivity_needs_order_value_witness :
  c_avg_order_value price_sensitive_customer == 0
  /\ relevance_score price_sensitive_customer
       (sample_product "P1" "Books" 4.5 None)
     = relevance_score (defaults_customer_data "C1")
         (sample_product "P1" "Books" 4.5 None).
Proof.
  split; [reflexivity|].
  exact (proj1 (price_sensitivity_needs_order_value price_sensitive_customer
                  (defaults_customer_data "C1")
                  (sample_product "P1" "Books" 4.5 None)
                  eq_refl eq_refl eq_refl ltac:(reflexivity)
                  ltac:(reflexivity))).
Defined.

Lemma coordinator_error_only_without_id_witness :
  coordinator_process sample_json_loads sample_str_of_float
    sample_get_llm_response sample_get_product_explanation
    sample_analyze_customer_profile (Some "") sample_system
  = (CoordinatorError "Customer ID is required", sample_system).
Proof.
  apply (coordinator_error_only_without_id sample_json_loads
           sample_str_of_float sample_get_llm_response
           sample_get_product_explanation sample_analyze_customer_profile
           (Some "") sample_system).
  by right.
Defined.

Lemma unknown_customer_witness :
  "C9" <> ""
  /\ get_customer "C9" (sys_customers sample_system) = None
  /\ exists explanation,
       (coordinator_process sample_json_loads sample_str_of_float
          sample_get_llm_response sample_get_product_explanation
          sample_analyze_customer_profile (Some "C9") sample_system).1
       = CoordinatorResult "C9" None [] explanation.
Proof.
  split; [discriminate|]. split; [reflexivity|].
  pose proof (unknown_customer_is_not_an_error sample_json_loads
                sample_str_of_float sample_get_llm_response
                sample_get_product_explanation sample_analyze_customer_profile
                "C9" sample_system ltac:(discriminate) eq_refl) as H.
  cbv zeta in H. exact (proj1 H).
Defined.

Lemma generation_requests_keep_strategy_witness :
  c_customer_id (sample_customer "C1" "Frequent Buyer" [] [])
  = c_customer_id (sample_customer "C1" "New Visitor" [] [])
  /\ response_strategy
       (process sample_json_loads sample_str_of_float sample_get_llm_response
          (generation_request (sample_customer "C1" "New Visitor" [] []) None)
          fresh_state).1
     = Some (Py.VStr "popularity_based")
  /\ exists recs explanation,
       (process sample_json_loads sample_str_of_float sample_get_llm_response
          (generation_request (sample_customer "C1" "Frequent Buyer" [] [])
             (Some sample_candidates))
          (process sample_json_loads sample_str_of_float
             sample_get_llm_response
             (generation_request (sample_customer "C1" "New Visitor" [] [])
                None)
             fresh_state).2).1
       = Recommendations recs (Py.VStr "popularity_based") explanation.
Proof.
  split; [reflexivity|]. split; [reflexivity|].
  destruct (process sample_json_loads sample_str_of_float
              sample_get_llm_response
              (generation_request (sample_customer "C1" "Frequent Buyer" [] [])
                 (Some sample_candidates))
              (process sample_json_loads sample_str_of_float
                 sample_get_llm_response
                 (generation_request (sample_customer "C1" "New Visitor" [] [])
                    None)
                 fresh_state).2).1
    as [msg|recs strategy explanation| | |] eqn:E; try discriminate E.
  exists recs, explanation. f_equal.
  exact (generation_requests_keep_strategy sample_json_loads
           sample_str_of_float sample_get_llm_response
           (sample_customer "C1" "New Visitor" [] [])
           (sample_customer "C1" "Frequent Buyer" [] [])
           None (Some sample_candidates) fresh_state
           [] recs (Py.VStr "popularity_based") strategy
           (_generate_recommendation_explanation sample_get_llm_response []
              (sample_customer "C1" "New Visitor" [] [])
              (Py.VStr "popularity_based"))
           explanation eq_refl eq_refl E).
Defined.

Lemma feedback_steers_next_generation_witness :
  recall_memory sample_json_loads agent_name (strategy_key "C1") durable_state
  = (Py.VStr "hybrid", warmed_state)
  /\ sqlite_integer (-1)
  /\ exists recs explanation,
       (process sample_json_loads sample_str_of_float sample_get_llm_response
          (generation_request sample_books_customer (Some sample_candidates))
          (handle_feedback sample_json_loads sample_str_of_float
             sample_get_llm_response (feedback_request "C1" "P1" (-1))
             durable_state).2).1
       = Recommendations recs (Py.VStr "collaborative_filtering") explanation.
Proof.
  split; [reflexivity|]. split; [exact minus_one_is_sqlite_integer|].
  destruct (process sample_json_loads sample_str_of_float
              sample_get_llm_response
              (generation_request sample_books_customer
                 (Some sample_candidates))
              (handle_feedback sample_json_loads sample_str_of_float
                 sample_get_llm_response (feedback_request "C1" "P1" (-1))
                 durable_state).2).1
    as [msg|recs strategy explanation| | |] eqn:E; try discriminate E.
  exists recs, explanation. f_equal.
  exact (feedback_steers_next_generation sample_json_loads sample_str_of_float
           sample_get_llm_response "C1" "P1" (-1) sample_books_customer
           (Some sample_candidates) durable_state warmed_state "hybrid"
           recs strategy explanation
           eq_refl hybrid_is_strategy ltac:(discriminate) ltac:(discriminate)
           ltac:(discriminate) minus_one_is_sqlite_integer eq_refl E).
Defined.

Lemma handle_feedback_error_witness :
  handle_feedback sample_json_loads sample_str_of_float sample_get_llm_response
    (feedback_request "" "P1" 1) rated_state
  = (Error "Missing required feedback data", rated_state).
Proof.
  apply (handle_feedback_error_changes_nothing sample_json_loads
           sample_str_of_float sample_get_llm_response
           (feedback_request "" "P1" 1) rated_state).
  left. by right.
Defined.

Lemma customer_agent_witness :
  get_customer "C1" (sys_customers sample_system) = Some sample_customer_row
  /\ customer_agent_process sample_analyze_customer_profile (Some "C1")
       (Some "update_profile") [("location", Py.VStr "Mars")] sample_system
     = (ProfileUpdated "C1", sample_system).
Proof.
  split; [reflexivity|].
  pose proof (customer_agent_changes_only_by_analysis
                sample_analyze_customer_profile (Some "C1")
                (Some "update_profile") [("location", Py.VStr "Mars")]
                sample_system) as H.
  cbv zeta in H.
  exact (proj1 (proj1 (proj2 (proj2 H)) "C1" sample_customer_row eq_refl
                 ltac:(discriminate) eq_refl eq_refl)).
Defined.

Lemma coordinator_recommends_from_catalog_witness :
  get_customer "C1" (sys_customers sample_system) = Some sample_customer_row
  /\ Forall scorable
            (products_of_categories sample_products_table ["Books"; "Toys"])
  /\ exists recs explanation,
       (coordinator_process sample_json_loads sample_str_of_float
          sample_get_llm_response sample_get_product_explanation
          sample_analyze_customer_profile (Some "C1") sample_system).1
       = CoordinatorResult "C1" (Some "Occasional Shopper") recs explanation
       /\ Forall (from_catalog sample_products_table ["Books"; "Toys"]) recs.
Proof.
  split; [reflexivity|]. split; [exact sample_rows_scorable|].
  destruct (coordinator_process sample_json_loads sample_str_of_float
              sample_get_llm_response sample_get_product_explanation
              sample_analyze_customer_profile (Some "C1") sample_system).1
    as [msg|answered segment recs explanation] eqn:E; [discriminate E|].
  destruct (coordinator_recommends_from_catalog sample_json_loads
              sample_str_of_float sample_get_llm_response
              sample_get_product_explanation sample_analyze_customer_profile
              "C1" sample_system sample_system sample_customer_row
              (sample_analyze_customer_profile sample_customer_row
                 sample_system).1.1
              ["Books"; "Toys"] answered segment recs explanation
              ltac:(discriminate) eq_refl eq_refl eq_refl
              sample_rows_scorable E)
    as (-> & -> & _ & Hfrom & _).
  exists recs, explanation. split; [reflexivity|exact Hfrom].
Defined.

Lemma recommendations_endpoint_witness :
  get_customer "C9" (sys_customers sample_system) = None
  /\ exists explanation,
       (get_recommendations sample_json_loads sample_str_of_float
          sample_get_llm_response sample_get_product_explanation
          sample_analyze_customer_profile sample_str_of_http_exception
          {| rq_customer_id := "C9"; rq_limit := Some 3%Z |} sample_system).1
       = @HttpOk _ (CoordinatorResult "C9" None [] explanation).
Proof.
  split; [reflexivity|].
  pose proof (recommendations_endpoint_status sample_json_loads
                sample_str_of_float sample_get_llm_response
                sample_get_product_explanation sample_analyze_customer_profile
                sample_str_of_http_exception "C9" (Some 3%Z) None
                sample_system) as H.
  cbv zeta in H. destruct H as (_ & _ & H).
  destruct (H ltac:(discriminate)) as (segment & recs & explanation & H1 & H2).
  destruct (H2 eq_refl) as [-> ->].
  exists explanation. exact H1.
Defined.

Lemma feedback_endpoint_witness :
  (submit_feedback sample_json_loads sample_str_of_float
     sample_get_llm_response sample_str_of_http_exception
     {| fq_customer_id := "C1"; fq_product_id := "P1"; fq_feedback := 0 |}
     sample_system).1
  = @HttpException _ 500
      (sample_str_of_http_exception 400 "Missing required feedback data").
Proof.
  pose proof (feedback_endpoint_status sample_json_loads sample_str_of_float
                sample_get_llm_response sample_str_of_http_exception
                {| fq_customer_id := "C1"; fq_product_id := "P1";
                   fq_feedback := 0 |} sample_system) as H.
  cbv zeta in H.
  exact (proj1 (proj1 H (or_intror (or_intror eq_refl)))).
Defined.

Lemma hybrid_of_few_candidates_witness :
  NoDup (map p_product_id (available_products sample_candidates))
  /\ (length (available_products sample_candidates) <= 10)%nat
  /\ length (_hybrid_strategy sample_str_of_float sample_books_customer
               sample_candidates)
     = length (available_products sample_candidates).
Proof.
  split; [exact sample_candidates_NoDup|].
  split; [cbn; lia|].
  exact (proj1 (hybrid_of_few_candidates sample_str_of_float
                  sample_books_customer sample_candidates
                  sample_candidates_NoDup ltac:(cbn; lia))).
Defined.
